(** * XunTracker: the workout log kept in one Markdown file

    A shallow embedding of [workout.py].  The program keeps a whole
    training diary in the single text file [workout_log.md]; every command
    reads the file, pattern-matches on its text and rewrites or appends
    to it.  The embedding therefore has three layers:

    - Python text: strings are lists of Unicode code points, with the
      [str] methods the program calls ([strip], [split], [splitlines],
      [startswith], [in], slicing);
    - the four regular expressions of the program, run by a small
      backtracking matcher that follows the search order of [re];
    - the commands, written in a state-and-exception monad over the file,
      the clock and the console. *)

From Stdlib Require Import Ascii String List NArith ZArith Bool Lia.
Import ListNotations.

Local Open Scope N_scope.

(* ===================================================================== *)
(** * Python text *)
(* ===================================================================== *)

(** A [str] is a sequence of code points. *)
Definition char := N.
Definition str := list char.

Definition ch (a : ascii) : char := N_of_ascii a.

(** Source literals are written as UTF-8 text and decoded once. *)
Fixpoint utf8_decode (bs : list N) : str :=
  match bs with
  | [] => []
  | b0 :: r0 =>
    if b0 <? 128 then b0 :: utf8_decode r0
    else match r0 with
    | [] => []
    | b1 :: r1 =>
      if b0 <? 224 then ((b0 - 192) * 64 + (b1 - 128)) :: utf8_decode r1
      else match r1 with
      | [] => []
      | b2 :: r2 =>
        if b0 <? 240
        then ((b0 - 224) * 4096 + (b1 - 128) * 64 + (b2 - 128)) :: utf8_decode r2
        else match r2 with
        | [] => []
        | b3 :: r3 =>
          ((b0 - 240) * 262144 + (b1 - 128) * 4096 + (b2 - 128) * 64 + (b3 - 128))
            :: utf8_decode r3
        end
      end
    end
  end.

Definition lit (s : string) : str :=
  utf8_decode (map N_of_ascii (list_ascii_of_string s)).

Definition NL : char := 10.
Definition CR : char := 13.
Definition SPACE : char := 32.
Definition PIPE : char := 124.
Definition DOT : char := 46.
Definition HYPHEN : char := 45.
Definition BACKSLASH : char := 92.

Fixpoint str_eqb (a b : str) : bool :=
  match a, b with
  | [], [] => true
  | x :: a', y :: b' => (x =? y) && str_eqb a' b'
  | _, _ => false
  end.

(** [s.startswith(p)] *)
Fixpoint startswith (p s : str) : bool :=
  match p, s with
  | [], _ => true
  | x :: p', y :: s' => (x =? y) && startswith p' s'
  | _ :: _, [] => false
  end.

(** [needle in hay] on strings: some suffix of [hay] starts with [needle]. *)
Fixpoint contains (needle hay : str) : bool :=
  startswith needle hay ||
  match hay with
  | [] => false
  | _ :: hay' => contains needle hay'
  end.

(** [x in xs] on a list of strings. *)
Definition str_in (x : str) (xs : list str) : bool := existsb (str_eqb x) xs.

(** [Py_UNICODE_ISSPACE]: what [str.strip()] removes and [\s] matches. *)
Definition isspace (c : char) : bool :=
  ((9 <=? c) && (c <=? 13)) || ((28 <=? c) && (c <=? 32)) ||
  (c =? 133) || (c =? 160) || (c =? 5760) ||
  ((8192 <=? c) && (c <=? 8202)) || (c =? 8232) || (c =? 8233) ||
  (c =? 8239) || (c =? 8287) || (c =? 12288).

(** [Py_UNICODE_ISDECIMAL]: what [\d] matches on a [str] pattern.  The
    table is the decimal-digit (Nd) ranges of Unicode 14. *)
Definition DECIMAL_RANGES : list (N * N) :=
  [(48, 57); (1632, 1641); (1776, 1785); (1984, 1993); (2406, 2415);
   (2534, 2543); (2662, 2671); (2790, 2799); (2918, 2927); (3046, 3055);
   (3174, 3183); (3302, 3311); (3430, 3439); (3558, 3567); (3664, 3673);
   (3792, 3801); (3872, 3881); (4160, 4169); (4240, 4249); (6112, 6121);
   (6160, 6169); (6470, 6479); (6608, 6617); (6784, 6793); (6800, 6809);
   (6992, 7001); (7088, 7097); (7232, 7241); (7248, 7257); (42528, 42537);
   (43216, 43225); (43264, 43273); (43472, 43481); (43504, 43513);
   (43600, 43609); (44016, 44025); (65296, 65305); (66720, 66729);
   (68912, 68921); (69734, 69743); (69872, 69881); (69942, 69951);
   (70096, 70105); (70384, 70393); (70736, 70745); (70864, 70873);
   (71248, 71257); (71360, 71369); (71472, 71481); (71904, 71913);
   (72016, 72025); (72784, 72793); (73040, 73049); (73120, 73129);
   (92768, 92777); (92864, 92873); (93008, 93017); (120782, 120831);
   (123200, 123209); (123632, 123641); (125264, 125273); (130032, 130041)].

Definition in_range (c : char) (r : N * N) : bool :=
  (fst r <=? c) && (c <=? snd r).

Definition isdecimal (c : char) : bool := existsb (in_range c) DECIMAL_RANGES.

(** The line boundaries of [str.splitlines()]. *)
Definition islinebreak (c : char) : bool :=
  ((10 <=? c) && (c <=? 13)) || ((28 <=? c) && (c <=? 30)) ||
  (c =? 133) || (c =? 8232) || (c =? 8233).

Fixpoint lstrip (s : str) : str :=
  match s with
  | c :: s' => if isspace c then lstrip s' else s
  | [] => []
  end.

Definition rstrip (s : str) : str := rev (lstrip (rev s)).

(** [s.strip()] *)
Definition strip (s : str) : str := rstrip (lstrip s).

(** [s.split(sep)] for a one-character separator: never the empty list. *)
Fixpoint split (sep : char) (s : str) : list str :=
  match s with
  | [] => [[]]
  | c :: s' =>
    if c =? sep then [] :: split sep s'
    else match split sep s' with
         | l :: ls => (c :: l) :: ls
         | [] => [[c]]
         end
  end.

(** [s.splitlines()]: [cur] is the line being read, reversed.  A line
    break closes the line; [\r\n] is one break; text after the last break
    is a line only when it is not empty. *)
Fixpoint splitlines_from (cur : str) (s : str) : list str :=
  match s with
  | [] => match cur with [] => [] | _ => [rev cur] end
  | c :: s' =>
    if islinebreak c then
      rev cur ::
      (if c =? CR
       then match s' with
            | d :: s'' => if d =? NL then splitlines_from [] s''
                          else splitlines_from [] s'
            | [] => splitlines_from [] s'
            end
       else splitlines_from [] s')
    else splitlines_from (c :: cur) s'
  end.

Definition splitlines (s : str) : list str := splitlines_from [] s.

(** [str(n)] for an [int]. *)
Fixpoint digits_from (fuel : nat) (n : N) (acc : str) : str :=
  match fuel with
  | O => acc
  | S fuel' =>
    let acc' := (48 + n mod 10) :: acc in
    if n <? 10 then acc' else digits_from fuel' (n / 10) acc'
  end.

Definition N_str (n : N) : str := digits_from (S (N.to_nat (N.log2 n))) n [].

Definition int_str (z : Z) : str :=
  match z with
  | Zneg p => HYPHEN :: N_str (Npos p)
  | _ => N_str (Z.to_N z)
  end.

(* ===================================================================== *)
(** * Regular expressions *)
(* ===================================================================== *)

(** The patterns of the program are sequences of one-character tests,
    repetitions of a one-character test (greedy [*], [+] or lazy [+?])
    and one capturing group.  [rmatch] tries alternatives in the order of
    [re]: a greedy repetition takes as much as it can and gives back one
    character at a time, a lazy one takes as little as it can and grows. *)
Inductive item : Type :=
| One (p : char -> bool)
| Many (greedy : bool) (min : nat) (p : char -> bool)
| Open
| Close.

Definition regex := list item.

Definition chr_is (c : char) : char -> bool := N.eqb c.
Arguments chr_is : simpl never.
Definition any_char : char -> bool := fun _ => true.
Definition lits (s : str) : regex := map (fun c => One (chr_is c)) s.
Definition star (p : char -> bool) : item := Many true 0 p.
Definition plus (p : char -> bool) : item := Many true 1 p.
Definition lazy_plus (p : char -> bool) : item := Many false 1 p.

Section Matcher.
Context {X : Type}.
Variable p : char -> bool.
Variable k : str -> option X.

Fixpoint many_greedy (min : nat) (s : str) : option X :=
  match s with
  | c :: s' =>
    if p c then
      match many_greedy (pred min) s' with
      | Some r => Some r
      | None => match min with O => k s | S _ => None end
      end
    else match min with O => k s | S _ => None end
  | [] => match min with O => k s | S _ => None end
  end.

Fixpoint many_lazy (min : nat) (s : str) : option X :=
  match s with
  | c :: s' =>
    match min with
    | O => match k s with
           | Some r => Some r
           | None => if p c then many_lazy 0 s' else None
           end
    | S m => if p c then many_lazy m s' else None
    end
  | [] => match min with O => k s | S _ => None end
  end.
End Matcher.

(** The text between the opening parenthesis, where [opened] was left to
    read, and the closing one, where [s] is left. *)
Definition capture (opened s : str) : str :=
  firstn (length opened - length s) opened.
Arguments capture : simpl never.

(** [rmatch r opened grp s]: match [r] at the start of [s]; [opened] is
    the text at the opening parenthesis, [grp] the group captured so far.
    The result is group 1 and the text after the match. *)
Fixpoint rmatch (r : regex) (opened grp s : str) : option (str * str) :=
  match r with
  | [] => Some (grp, s)
  | One p :: r' =>
    match s with
    | c :: s' => if p c then rmatch r' opened grp s' else None
    | [] => None
    end
  | Many true min p :: r' => many_greedy p (rmatch r' opened grp) min s
  | Many false min p :: r' => many_lazy p (rmatch r' opened grp) min s
  | Open :: r' => rmatch r' s grp s
  | Close :: r' => rmatch r' opened (capture opened s) s
  end.

(** [re.match(r, s)]: group 1 and the rest of [s]. *)
Definition re_match (r : regex) (s : str) : option (str * str) :=
  rmatch r [] [] s.

(** [re.search(r, s)]: the leftmost position where [r] matches; the text
    before the match, group 1, and the text after the match. *)
Fixpoint search_from (r : regex) (before s : str) : option (str * str * str) :=
  match re_match r s with
  | Some (g, rest) => Some (rev before, g, rest)
  | None =>
    match s with
    | [] => None
    | c :: s' => search_from r (c :: before) s'
    end
  end.

Definition re_search (r : regex) (s : str) : option (str * str * str) :=
  search_from r [] s.

(** [re.findall(r, s)] for a pattern with one group: group 1 of every
    match, left to right, the scan resuming where the last match ended.
    [skip] counts the characters of the last match still to be passed. *)
Fixpoint findall_from (r : regex) (skip : nat) (s : str) : list str :=
  match s with
  | [] => match skip, re_match r [] with
          | O, Some (g, _) => [g]
          | _, _ => []
          end
  | _ :: s' =>
    match skip with
    | S n => findall_from r n s'
    | O =>
      match re_match r s with
      | Some (g, rest) =>
        g :: findall_from r (pred (length s - length rest)) s'
      | None => findall_from r 0 s'
      end
    end
  end.

Definition re_findall (r : regex) (s : str) : list str := findall_from r 0 s.

(** ** Replacement templates

    [re.subn] reads its replacement as a template: a backslash starts an
    escape.  [parse_template] follows [re._parser.parse_template] for a
    pattern with one unnamed group; [None] stands for the exception it
    raises ([re.error], or [IndexError] for a group name). *)
Inductive tpl : Type :=
| TLit (c : char)
| TGroup (n : N).

Definition is_ascii_digit (c : char) : bool := (48 <=? c) && (c <=? 57).
Definition is_oct_digit (c : char) : bool := (48 <=? c) && (c <=? 55).
Definition is_ascii_letter (c : char) : bool :=
  ((65 <=? c) && (c <=? 90)) || ((97 <=? c) && (c <=? 122)).

(** The value of a decimal digit of any script. *)
Definition digit_value (c : char) : option N :=
  match find (in_range c) DECIMAL_RANGES with
  | Some (lo, _) => Some ((c - lo) mod 10)
  | None => None
  end.

(** Digits with single underscores between them, as [int] reads them. *)
Fixpoint int_digits (acc : N) (after_digit : bool) (s : str) : option N :=
  match s with
  | [] => if after_digit then Some acc else None
  | c :: s' =>
    match digit_value c with
    | Some d => int_digits (10 * acc + d) true s'
    | None =>
      if (c =? 95) && after_digit
      then match s' with
           | [] => None
           | _ => int_digits acc false s'
           end
      else None
    end
  end.

(** [int(name)] as [\g<name>] uses it: a group index, never negative. *)
Definition group_index (name : str) : option N :=
  match strip name with
  | c :: body =>
    if c =? 43 then int_digits 0 false body
    else if c =? HYPHEN then
      match int_digits 0 false body with
      | Some 0 => Some 0
      | _ => None
      end
    else int_digits 0 false (c :: body)
  | [] => None
  end.

Fixpoint until_gt (s : str) : option (str * str) :=
  match s with
  | [] => None
  | c :: s' =>
    if c =? 62 then Some ([], s')
    else match until_gt s' with
         | Some (name, rest) => Some (c :: name, rest)
         | None => None
         end
  end.

Definition ESCAPES (c : char) : option char :=
  if c =? 97 then Some 7
  else if c =? 98 then Some 8
  else if c =? 102 then Some 12
  else if c =? 110 then Some 10
  else if c =? 114 then Some 13
  else if c =? 116 then Some 9
  else if c =? 118 then Some 11
  else if c =? BACKSLASH then Some BACKSLASH
  else None.

Definition tcons (t : tpl) (r : option (list tpl)) : option (list tpl) :=
  option_map (cons t) r.

Fixpoint parse_template (fuel : nat) (groups : N) (s : str) : option (list tpl) :=
  match fuel with
  | O => None
  | S fuel' =>
    let continue := parse_template fuel' groups in
    let group (n : N) (rest : str) :=
      if n <=? groups then tcons (TGroup n) (continue rest) else None in
    match s with
    | [] => Some []
    | c :: s1 =>
      if negb (c =? BACKSLASH) then tcons (TLit c) (continue s1)
      else match s1 with
      | [] => None
      | e :: s2 =>
        if e =? 103 then
          match s2 with
          | lt :: s3 =>
            if lt =? 60 then
              match until_gt s3 with
              | Some (name, rest) =>
                match group_index name with
                | Some n => group n rest
                | None => None
                end
              | None => None
              end
            else None
          | [] => None
          end
        else if e =? 48 then
          match s2 with
          | o1 :: s3 =>
            if is_oct_digit o1 then
              match s3 with
              | o2 :: s4 =>
                if is_oct_digit o2
                then tcons (TLit (((o1 - 48) * 8 + (o2 - 48)) mod 256)) (continue s4)
                else tcons (TLit (o1 - 48)) (continue s3)
              | [] => tcons (TLit (o1 - 48)) (continue s3)
              end
            else tcons (TLit 0) (continue s2)
          | [] => tcons (TLit 0) (continue s2)
          end
        else if is_ascii_digit e then
          match s2 with
          | d :: s3 =>
            if is_ascii_digit d then
              match s3 with
              | o :: s4 =>
                if is_oct_digit e && is_oct_digit d && is_oct_digit o then
                  let v := (e - 48) * 64 + (d - 48) * 8 + (o - 48) in
                  if 255 <? v then None else tcons (TLit v) (continue s4)
                else group ((e - 48) * 10 + (d - 48)) s3
              | [] => group ((e - 48) * 10 + (d - 48)) s3
              end
            else group (e - 48) s2
          | [] => group (e - 48) s2
          end
        else match ESCAPES e with
        | Some x => tcons (TLit x) (continue s2)
        | None =>
          if is_ascii_letter e then None
          else tcons (TLit BACKSLASH) (tcons (TLit e) (continue s2))
        end
      end
    end
  end.

(** Expansion of a parsed template: [whole] is group 0, [g1] group 1. *)
Fixpoint expand_template (t : list tpl) (whole g1 : str) : str :=
  match t with
  | [] => []
  | TLit c :: t' => c :: expand_template t' whole g1
  | TGroup n :: t' =>
    (if n =? 0 then whole else g1) ++ expand_template t' whole g1
  end.

(** [re.subn(r, template, s, count=1)] for a pattern [r] with one group
    that never matches the empty string: the new text and the number of
    substitutions; [None] when the template is refused.  The template is
    compiled before the search starts. *)
Definition re_subn_once (r : regex) (template s : str) : option (str * nat) :=
  match parse_template (S (length template)) 1 template with
  | None => None
  | Some t =>
    match re_search r s with
    | Some (before, g1, rest) =>
      let whole := firstn (length s - length before - length rest)
                          (skipn (length before) s) in
      Some (before ++ expand_template t whole g1 ++ rest, 1%nat)
    | None => Some (s, 0%nat)
    end
  end.

(* ===================================================================== *)
(** * The Python runtime the program relies on *)
(* ===================================================================== *)

(** Floating-point numbers and Unicode case mapping are taken from the
    runtime: [float(s)] ([None] is [ValueError]), the text of a float in an
    f-string, [>] on floats, [int * float] ([None] is [OverflowError]) and
    [str.lower()]. *)
Class PyRuntime : Type := {
  pyfloat : Type;
  float_zero : pyfloat;
  float_of_str : str -> option pyfloat;
  float_str : pyfloat -> str;
  float_gt : pyfloat -> pyfloat -> bool;
  int_mul_float : Z -> pyfloat -> option pyfloat;
  str_lower : str -> str
}.

(** A character that can stand in a table cell: no white space, no
    column delimiter. *)
Definition plain (c : char) : bool := negb (isspace c) && negb (c =? PIPE).

(** What the proofs need of the runtime.  [>] on floats is irreflexive
    and transitive, and what is not above [y] is not above anything above
    [y] (the three hold with NaN too); the text of a float has at least one
    character, none of them white space or the column delimiter, and no
    run of three hyphens. *)
Class PyRuntimeLaws (R : PyRuntime) : Prop := {
  float_gt_irrefl : forall x, float_gt x x = false;
  float_gt_trans : forall x y z,
      float_gt x y = true -> float_gt y z = true -> float_gt x z = true;
  float_gt_chain : forall x y z,
      float_gt x y = false -> float_gt z y = true -> float_gt x z = false;
  float_str_cell : forall x,
      float_str x <> [] /\ forallb plain (float_str x) = true /\
      contains (lit "---") (float_str x) = false
}.

(** Truth value of an optional string: [None] and [""] are false. *)
Definition truthy (o : option str) : bool :=
  match o with
  | Some (_ :: _) => true
  | _ => false
  end.

(* ===================================================================== *)
(** * The document and its patterns *)
(* ===================================================================== *)

Definition ACTIONS_HEADING : str := Eval vm_compute in lit "## 可用动作".
Definition NEXT_HEADING : str := Eval vm_compute in NL :: lit "##".
Definition BULLET : str := Eval vm_compute in lit "- ".

(** [r"## 可用动作\n(.+?)\n##"] with [re.DOTALL] *)
Definition ACTIONS_SECTION_RE : regex :=
  lits (ACTIONS_HEADING ++ [NL]) ++ [Open; lazy_plus any_char; Close]
  ++ lits NEXT_HEADING.

(** [r"(## 可用动作\n)"] *)
Definition ACTIONS_HEADING_RE : regex :=
  [Open] ++ lits (ACTIONS_HEADING ++ [NL]) ++ [Close].

(** [rf"\1- {name}\n"]: the name is pasted into the raw template. *)
Definition add_template (name : str) : str :=
  [BACKSLASH; 49] ++ BULLET ++ name ++ [BACKSLASH; 110].

Definition digit_or_dot (c : char) : bool := isdecimal c || (c =? DOT).

(** [rf"\|\s*{re.escape(a)}\s*\|\s*\d+\s*\|\s*\d+\s*\|\s*([\d.]+)\s*\|"]:
    the escaped name matches itself, character by character. *)
Definition record_row_re (a : str) : regex :=
  [One (chr_is PIPE); star isspace] ++ lits a ++
  [star isspace; One (chr_is PIPE);
   star isspace; plus isdecimal; star isspace; One (chr_is PIPE);
   star isspace; plus isdecimal; star isspace; One (chr_is PIPE);
   star isspace; Open; plus digit_or_dot; Close; star isspace;
   One (chr_is PIPE)].

(** [r"## (\d{4}-\d{2}-\d{2})"] *)
Definition DATE_HEADING_RE : regex :=
  lits (lit "## ") ++
  [Open; One isdecimal; One isdecimal; One isdecimal; One isdecimal;
   One (chr_is HYPHEN); One isdecimal; One isdecimal;
   One (chr_is HYPHEN); One isdecimal; One isdecimal; Close].

Definition unlines (ls : list str) : str :=
  flat_map (fun l => l ++ [NL]) ls.

(** The text [initialize_storage] writes. *)
Definition TEMPLATE : str := Eval vm_compute in
  unlines [ lit "# 我的训练日志";
            [];
            lit "## 可用动作";
            lit "- 深蹲 (Squat)";
            lit "- 卧推 (Bench Press)";
            lit "- 硬拉 (Deadlift)";
            [];
            lit "## 训练目标";
            lit "- 深蹲: 120 kg";
            lit "- 卧推: 100 kg";
            [] ].

Definition TABLE_HEADER : str := Eval vm_compute in
  lit "| 动作 (Action) | 组数 (Sets) | 次数 (Rps) | 重量 (KG) | 训练量 (Volume) |"
  ++ [NL] ++
  lit "|---------------|-------------|------------|-----------|-----------------|".

Definition HEADER_ROW : str := Eval vm_compute in
  lit "| 动作 (Action) | 组数 (Sets) | 次数 (Rps) | 重量 (KG) | 训练量 (Volume) |".

Definition SEPARATOR_ROW : str := Eval vm_compute in
  lit "|---------------|-------------|------------|-----------|-----------------|".



Definition SEPARATOR_MARK : str := Eval vm_compute in lit "---".
Definition HEADER_WORD : str := Eval vm_compute in lit "Action".

(** The body of [get_actions] after the file is read. *)
Definition parse_actions (content : str) : list str :=
  match re_search ACTIONS_SECTION_RE content with
  | Some (_, actions_text, _) =>
    map (fun line => skipn 2 (strip line))
        (filter (fun line => startswith BULLET (strip line))
                (split NL (strip actions_text)))
  | None => []
  end.

(** One row of the history table. *)
Record entry : Type := {
  e_date : str; e_action : str; e_sets : str; e_reps : str;
  e_kg : str; e_volume : str
}.

(** The loop of [history]: [current_date] is the loop variable, the
    result is the rows added to the table, in order. *)
Definition history_step (current_date : option str) (line : str)
  : option str * list entry :=
  match re_match DATE_HEADING_RE (strip line) with
  | Some (date, _) => (Some date, [])
  | None =>
    if truthy current_date && startswith [PIPE] (strip line)
       && negb (contains SEPARATOR_MARK line)
    then
      match current_date, map strip (split PIPE (strip line)) with
      | Some d, [_; action; sets; reps; kg; volume; _] =>
        if truthy (Some action) && negb (contains HEADER_WORD action)
        then (current_date, [Build_entry d action sets reps kg volume])
        else (current_date, [])
      | _, _ => (current_date, [])
      end
    else (current_date, [])
  end.

Fixpoint history_loop (current_date : option str) (lines : list str)
  : list entry :=
  match lines with
  | [] => []
  | line :: rest =>
    let (d, rows) := history_step current_date line in
    rows ++ history_loop d rest
  end.

Definition history_rows (content : str) : list entry :=
  history_loop None (splitlines content).

(** How a command ends when it does not return. *)
Inductive exn : Type :=
| Exit (code : Z)
| FileNotFoundError
| ValueError
| OverflowError
| TemplateError.

Inductive outcome (A : Type) : Type :=
| Done (a : A)
| Raised (e : exn).
Arguments Done {A} a.
Arguments Raised {A} e.

Section Program.
Context {R : PyRuntime}.

(** What the commands print. *)
Inductive message : Type :=
| MsgCreatingFile
| MsgNoActions
| MsgActionsTable (actions : list str)
| MsgAlreadyExists (name : str)
| MsgAdded (name : str)
| MsgHeadingNotFound
| MsgActionNotFound (action_name : str)
| MsgAddItFirst
| MsgRecorded (sets reps : Z) (matched_action : str) (kg volume : pyfloat)
| MsgPersonalRecord (matched_action : str) (kg max_weight_before : pyfloat)
| MsgNoRecords
| MsgHistoryTable (rows : list entry).

(** The state a command sees: the file [workout_log.md] ([None] when
    it does not exist), the date of the clock as
    [strftime("%Y-%m-%d")] prints it, and the console. *)
Record world : Type := {
  data_file : option str;
  today : str;
  console : list message
}.

(** Commands: the state survives an exception. *)
Definition M (A : Type) : Type := world -> outcome A * world.

Definition ret {A} (a : A) : M A := fun w => (Done a, w).
Definition raise {A} (e : exn) : M A := fun w => (Raised e, w).
Definition bind {A B} (m : M A) (f : A -> M B) : M B :=
  fun w => match m w with
           | (Done a, w') => f a w'
           | (Raised e, w') => (Raised e, w')
           end.

Notation "x <- m ;; k" := (bind m (fun x => k))
  (at level 61, m at next level, right associativity).
Notation "m ;; k" := (bind m (fun _ => k))
  (at level 61, right associativity).

(** [DATA_FILE.exists()] *)
Definition exists_ : M bool :=
  fun w => (Done (match data_file w with Some _ => true | None => false end), w).

(** [DATA_FILE.read_text(encoding="utf-8")] *)
Definition read_text : M str :=
  fun w => match data_file w with
           | Some content => (Done content, w)
           | None => (Raised FileNotFoundError, w)
           end.

(** [DATA_FILE.write_text(content, encoding="utf-8")] *)
Definition write_text (content : str) : M unit :=
  fun w => (Done tt, {| data_file := Some content; today := today w;
                        console := console w |}).

(** [with DATA_FILE.open("a") as f: f.write(text)] *)
Definition append_text (text : str) : M unit :=
  fun w => (Done tt, {| data_file := Some (match data_file w with
                                           | Some content => content ++ text
                                           | None => text
                                           end);
                        today := today w; console := console w |}).

(** [console.print(...)] *)
Definition print (m : message) : M unit :=
  fun w => (Done tt, {| data_file := data_file w; today := today w;
                        console := console w ++ [m] |}).

Definition get_today_date : M str := fun w => (Done (today w), w).

Definition lift {A} (e : exn) (o : option A) : M A :=
  match o with
  | Some a => ret a
  | None => raise e
  end.

Definition get_actions : M (list str) :=
  content <- read_text ;;
  ret (parse_actions content).

Definition initialize_storage : M unit :=
  present <- exists_ ;;
  if present then ret tt
  else print MsgCreatingFile ;; write_text TEMPLATE.

Definition action_show : M unit :=
  actions <- get_actions ;;
  match actions with
  | [] => print MsgNoActions
  | _ => print (MsgActionsTable actions)
  end.

Definition action_add (name : str) : M unit :=
  actions <- get_actions ;;
  if str_in name actions then
    print (MsgAlreadyExists name) ;; raise (Exit 1)
  else
    content <- read_text ;;
    subst <- lift TemplateError
               (re_subn_once ACTIONS_HEADING_RE (add_template name) content) ;;
    let (new_content, count) := subst : str * nat in
    if (0 <? count)%nat then
      write_text new_content ;; print (MsgAdded name)
    else
      print MsgHeadingNotFound ;; raise (Exit 1).

(** The [for] loop of [record]: the first action whose lower-cased
    text contains the lower-cased query. *)
Fixpoint find_action (action_name : str) (actions : list str) : option str :=
  match actions with
  | [] => None
  | action :: rest =>
    if contains (str_lower action_name) (str_lower action)
    then Some action
    else find_action action_name rest
  end.

(** [max] of a non-empty sequence: the first largest element. *)
Fixpoint max_from (m : pyfloat) (xs : list pyfloat) : pyfloat :=
  match xs with
  | [] => m
  | x :: xs' => max_from (if float_gt x m then x else m) xs'
  end.

Fixpoint floats_of (ws : list str) : option (list pyfloat) :=
  match ws with
  | [] => Some []
  | w :: ws' =>
    match float_of_str w, floats_of ws' with
    | Some x, Some xs => Some (x :: xs)
    | _, _ => None
    end
  end.

Definition all_records_for_action (matched_action content : str) : list str :=
  re_findall (record_row_re matched_action) content.

(** [max_weight_before]; [None] when some captured text is not a float. *)
Definition max_weight_before (matched_action content : str) : option pyfloat :=
  match all_records_for_action matched_action content with
  | [] => Some float_zero
  | ws =>
    match floats_of ws with
    | Some (x :: xs) => Some (max_from x xs)
    | _ => None
    end
  end.

Definition date_header (today_str : str) : str := lit "## " ++ today_str.

Definition new_record_row (matched_action : str) (sets reps : Z)
           (kg volume : pyfloat) : str :=
  lit "| " ++ matched_action ++ lit " | " ++ int_str sets ++ lit " | " ++
  int_str reps ++ lit " | " ++ float_str kg ++ lit " | " ++
  float_str volume ++ lit " |".

(** Steps 2 to 5 of [record], once the action is validated. *)
Definition record_matched (matched_action : str) (reps : Z) (kg : pyfloat)
           (sets : Z) : M unit :=
  volume <- lift OverflowError (int_mul_float (sets * reps) kg) ;;
  today_str <- get_today_date ;;
  let row := new_record_row matched_action sets reps kg volume in
  content <- read_text ;;
  before <- lift ValueError (max_weight_before matched_action content) ;;
  let is_pr := float_gt kg before in
  (if contains (date_header today_str) content
   then append_text ([NL] ++ row)
   else append_text ([NL; NL] ++ date_header today_str ++ [NL]
                     ++ TABLE_HEADER ++ [NL] ++ row)) ;;
  print (MsgRecorded sets reps matched_action kg volume) ;;
  if is_pr then print (MsgPersonalRecord matched_action kg before)
  else ret tt.

Definition record (action_name : str) (reps : Z) (kg : pyfloat) (sets : Z)
  : M unit :=
  actions <- get_actions ;;
  let matched := find_action action_name actions in
  if negb (truthy matched) then
    print (MsgActionNotFound action_name) ;; print MsgAddItFirst ;;
    raise (Exit 1)
  else
    record_matched (match matched with Some a => a | None => [] end)
                   reps kg sets.

Definition history : M unit :=
  content <- read_text ;;
  match history_rows content with
  | [] => print MsgNoRecords
  | rows => print (MsgHistoryTable rows)
  end.

(** The callback [main] runs before every command. *)
Definition main : M unit := initialize_storage.

Definition cli {A} (command : M A) : M A := main ;; command.

End Program.

(* ===================================================================== *)
(** * A reference runtime *)
(* ===================================================================== *)

(** A small runtime on which the commands can be run: weights are exact
    multiples of 0.001 (it agrees with binary floating point on the short
    decimals below 2^53/1000 that are dyadic, such as 100.0, 80.0 or 2.5),
    and [lower] maps the letters A to Z. *)
Module Milli.

Fixpoint digits_value (acc : N) (s : str) : option N :=
  match s with
  | [] => Some acc
  | c :: s' =>
    match digit_value c with
    | Some d => digits_value (10 * acc + d) s'
    | None => None
    end
  end.

Definition of_unsigned (s : str) : option Z :=
  match split DOT s with
  | [ip] =>
    match ip, digits_value 0 ip with
    | _ :: _, Some n => Some (Z.of_N (1000 * n))
    | _, _ => None
    end
  | [ip; fp] =>
    match ip ++ fp, digits_value 0 ip, digits_value 0 fp,
          digits_value 0 (firstn 3 (fp ++ [48; 48; 48])) with
    | _ :: _, Some n, Some _, Some f => Some (Z.of_N (1000 * n + f))
    | _, _, _, _ => None
    end
  | _ => None
  end.

Definition of_str (s : str) : option Z :=
  match strip s with
  | c :: body =>
    if c =? HYPHEN then option_map Z.opp (of_unsigned body)
    else if c =? 43 then of_unsigned body
    else of_unsigned (c :: body)
  | [] => None
  end.

Definition fraction (f : N) : str :=
  if f mod 100 =? 0 then [48 + f / 100]
  else if f mod 10 =? 0 then [48 + f / 100; 48 + (f / 10) mod 10]
  else [48 + f / 100; 48 + (f / 10) mod 10; 48 + f mod 10].

Definition to_str (x : Z) : str :=
  (if (x <? 0)%Z then [HYPHEN] else []) ++
  N_str (Z.abs_N x / 1000) ++ [DOT] ++ fraction (Z.abs_N x mod 1000).

Definition lower_char (c : char) : char :=
  if (65 <=? c) && (c <=? 90) then c + 32 else c.

#[export] Instance runtime : PyRuntime := {|
  pyfloat := Z;
  float_zero := 0%Z;
  float_of_str := of_str;
  float_str := to_str;
  float_gt := fun x y => (y <? x)%Z;
  int_mul_float := fun n x => Some (n * x)%Z;
  str_lower := map lower_char
|}.

End Milli.

(* ===================================================================== *)
(** * Sample documents *)
(* ===================================================================== *)

Module Sample.
Import Milli.

Definition squat : str := Eval vm_compute in lit "深蹲 (Squat)".

(** A world whose file is [content], on the first of January 2025. *)
Definition world_of (content : str) : world :=
  {| data_file := Some content; today := lit "2025-01-01"; console := [] |}.

(** The document right after [initialize_storage] created it. *)
Definition fresh : world := world_of TEMPLATE.

Definition first_row : str := Eval vm_compute in
  lit "| 深蹲 (Squat) | 3 | 5 | 100.0 | 1500.0 |".

(** A weight in kilograms given in thousandths. *)
Definition kg (thousandths : Z) : pyfloat := thousandths.

(** [record Squat 5 100.0 --sets 3] on the fresh document. *)
Definition after_first : world :=
  snd (record (lit "Squat") 5 (kg 100000) 3 fresh).


Definition second_row : str := Eval vm_compute in
  lit "| 深蹲 (Squat) | 1 | 5 | 80.0 | 400.0 |".

(** The document after its owner removed the three default exercises
    from the registry and logged nothing else in that section. *)
Definition emptied : str := Eval vm_compute in
  unlines [ lit "# 我的训练日志";
            [];
            lit "## 可用动作";
            [];
            lit "## 训练目标";
            lit "- 深蹲: 120 kg";
            lit "- 卧推: 100 kg";
            [];
            lit "## 2025-01-01" ]
  ++ TABLE_HEADER ++ [NL] ++ first_row.

(** The fresh document with a day entered by hand one heading level
    too deep. *)
Definition deep_heading : str :=
  TEMPLATE ++ lit "### 2025-01-01" ++ [NL].

(** The fresh document after [action add "Push|Pull"]. *)
Definition with_push_pull : world :=
  snd (action_add (lit "Push|Pull") fresh).

(** A document whose registry is its last section. *)
Definition registry_last : str := Eval vm_compute in
  unlines [ lit "# log"; []; lit "## 可用动作"; lit "- 深蹲 (Squat)" ].

(** A hand-written day: two rows that look like any other row. *)
Definition day : str := Eval vm_compute in lit "## 2025-01-01".
Definition lunge_row : str := Eval vm_compute in
  lit "| Action Lunge | 3 | 10 | 20.0 | 600.0 |".
Definition pulldown_row : str := Eval vm_compute in
  lit "| Pull---down | 3 | 8 | 40.0 | 960.0 |".
Definition hand_written : str :=
  TEMPLATE ++ day ++ [NL] ++ lunge_row ++ [NL] ++ pulldown_row ++ [NL].


End Sample.

(* ===================================================================== *)
(** * The history listing, line by line *)
(* ===================================================================== *)

(** A second description of [history], by position in the file rather
    than by a loop variable; the two are proved equal below. *)

(** The date of a date-heading line. *)
Definition heading_date (line : str) : option str :=
  option_map fst (re_match DATE_HEADING_RE (strip line)).

(** The date of the most recent heading among the lines read so far. *)
Definition last_heading (seen : list str) : option str :=
  match filter (fun l => match heading_date l with Some _ => true | None => false end)
               (rev seen) with
  | l :: _ => heading_date l
  | [] => None
  end.

(** The cells of a row line: it starts with the column delimiter once
    trimmed, holds no run of three hyphens, splits into 7 parts, and its
    action cell is neither empty nor contains the word [Action]. *)
Definition row_cells (line : str) : option (str * str * str * str * str) :=
  if startswith [PIPE] (strip line) && negb (contains SEPARATOR_MARK line)
  then match map strip (split PIPE (strip line)) with
       | [_; action; sets; reps; kg; volume; _] =>
         match action with
         | [] => None
         | _ => if contains HEADER_WORD action then None
                else Some (action, sets, reps, kg, volume)
         end
       | _ => None
       end
  else None.

(** What the line after the lines [seen] contributes to the listing. *)
Definition listed_at (seen : list str) (line : str) : list entry :=
  match heading_date line, last_heading seen, row_cells line with
  | None, Some d, Some (action, sets, reps, kg, volume) =>
    [Build_entry d action sets reps kg volume]
  | _, _, _ => []
  end.

Definition listing (lines : list str) : list entry :=
  flat_map (fun i => listed_at (firstn i lines) (nth i lines []))
           (seq 0 (length lines)).

(* ===================================================================== *)
(** * The registry section, without a pattern *)
(* ===================================================================== *)

(** The text before and the text after the first occurrence of [needle]. *)
Fixpoint find_first (needle s : str) : option (str * str) :=
  if startswith needle s then Some ([], skipn (length needle) s)
  else match s with
       | [] => None
       | c :: s' =>
         match find_first needle s' with
         | Some (a, b) => Some (c :: a, b)
         | None => None
         end
       end.

(** The registry section of a document: the text before the first
    heading line, the text from that line up to the first line break that
    is followed by [##] and comes at least one character later, and the
    text after the two marks. *)
Definition section_of (content : str) : option (str * str * str) :=
  match find_first (ACTIONS_HEADING ++ [NL]) content with
  | Some (before, c :: u) =>
    match find_first NEXT_HEADING u with
    | Some (b, rest) => Some (before, c :: b, rest)
    | None => None
    end
  | _ => None
  end.

(** The bullets of a text: its lines that start with the marker once
    trimmed, without the marker. *)
Definition bullets (text : str) : list str :=
  map (fun line => skipn 2 (strip line))
      (filter (fun line => startswith BULLET (strip line))
              (split NL text)).

(* ===================================================================== *)
(** * The rows of an exercise, cell by cell *)
(* ===================================================================== *)

(** A second description of what the row pattern of [record] finds, on
    the cells between column delimiters rather than on characters; the two
    are proved equal below for names without delimiter that do not start
    with white space. *)

Fixpoint drop_while (p : char -> bool) (s : str) : str :=
  match s with
  | c :: s' => if p c then drop_while p s' else s
  | [] => []
  end.

Fixpoint take_while (p : char -> bool) (s : str) : str :=
  match s with
  | c :: s' => if p c then c :: take_while p s' else []
  | [] => []
  end.

(** A cell that holds, between white space, one run of characters of
    class [p] and nothing else. *)
Definition run_cell (p : char -> bool) (c : str) : bool :=
  match lstrip c with
  | d :: _ => p d && forallb isspace (drop_while p (lstrip c))
  | [] => false
  end.

Definition int_cell : str -> bool := run_cell isdecimal.
Definition weight_cell : str -> bool := run_cell digit_or_dot.
Definition weight_text (c : str) : str := take_while digit_or_dot (lstrip c).

(** A cell that holds, between white space, the name [a]. *)
Definition name_cell (a c : str) : bool :=
  startswith a (lstrip c) && forallb isspace (skipn (length a) (lstrip c)).

(** The scan over the cells that follow a column delimiter.  Four cells
    in a row, a name, two integers and a weight, followed by any fifth
    cell, make a row of the exercise; the scan resumes after the fifth
    cell.  Otherwise it moves on by one cell. *)
Fixpoint scan_cells (a : str) (cells : list str) : list str :=
  match cells with
  | [] => []
  | c1 :: rest =>
    match rest with
    | c2 :: c3 :: c4 :: _ :: more =>
      if name_cell a c1 && int_cell c2 && int_cell c3 && weight_cell c4
      then weight_text c4 :: scan_cells a more
      else scan_cells a rest
    | _ => scan_cells a rest
    end
  end.


(** The date of the clock as [strftime("%Y-%m-%d")] writes it for a
    four-digit year. *)
Definition iso_date (d : str) : bool :=
  match d with
  | [y1; y2; y3; y4; h1; m1; m2; h2; d1; d2] =>
    isdecimal y1 && isdecimal y2 && isdecimal y3 && isdecimal y4 &&
    (h1 =? HYPHEN) && isdecimal m1 && isdecimal m2 && (h2 =? HYPHEN) &&
    isdecimal d1 && isdecimal d2
  | _ => false
  end.

(* ===================================================================== *)
(** * Properties of the text operations *)
(* ===================================================================== *)

Lemma str_eqb_eq (a b : str) : str_eqb a b = true <-> a = b.
Proof.
  revert b; induction a as [|x a IH]; intros [|y b]; simpl;
    try (split; [discriminate || reflexivity | discriminate || reflexivity]).
  rewrite andb_true_iff, N.eqb_eq, IH.
  split; [intros [-> ->]; reflexivity | intros E; inversion E; auto].
Qed.

Lemma str_in_In (x : str) (xs : list str) : str_in x xs = true <-> In x xs.
Proof.
  unfold str_in. rewrite existsb_exists. split.
  - intros (y & Hy & E). apply str_eqb_eq in E. subst. exact Hy.
  - intros H. exists x. split; [exact H | apply str_eqb_eq; reflexivity].
Qed.

Lemma startswith_iff (p s : str) :
  startswith p s = true <-> exists t, s = p ++ t.
Proof.
  revert s; induction p as [|x p IH]; intros s; simpl.
  - split; [intros _; exists s; reflexivity | reflexivity].
  - destruct s as [|y s].
    + split; [discriminate | intros (t & E); discriminate].
    + rewrite andb_true_iff, N.eqb_eq, IH. split.
      * intros (-> & t & ->). exists t. reflexivity.
      * intros (t & E). inversion E. split; [reflexivity | exists t; reflexivity].
Qed.

Lemma startswith_app (p t : str) : startswith p (p ++ t) = true.
Proof. apply startswith_iff. exists t. reflexivity. Qed.

Lemma contains_iff (needle hay : str) :
  contains needle hay = true <-> exists a b, hay = a ++ needle ++ b.
Proof.
  induction hay as [|c hay IH].
  - simpl. rewrite orb_false_r, startswith_iff. split.
    + intros (t & E). exists [], t. exact E.
    + intros (a & b & E). destruct a; simpl in E.
      * exists b. exact E.
      * discriminate.
  - simpl. rewrite orb_true_iff, startswith_iff, IH. split.
    + intros [(t & E) | (a & b & E)].
      * exists [], t. exact E.
      * exists (c :: a), b. rewrite E. reflexivity.
    + intros (a & b & E). destruct a as [|x a]; simpl in E.
      * left. exists b. exact E.
      * right. inversion E. exists a, b. reflexivity.
Qed.

Lemma lstrip_head (s t : str) (c : char) :
  lstrip s = c :: t -> isspace c = false.
Proof.
  induction s as [|x s IH]; simpl; [discriminate|].
  destruct (isspace x) eqn:E; [exact IH|].
  intros H. inversion H. subst. exact E.
Qed.

Lemma lstrip_fixed (c : char) (s : str) :
  isspace c = false -> lstrip (c :: s) = c :: s.
Proof. intros H. simpl. rewrite H. reflexivity. Qed.

(** A stripped string does not end with white space. *)
Lemma strip_last (s pre : str) (c : char) :
  strip s = pre ++ [c] -> isspace c = false.
Proof.
  unfold strip, rstrip. intros H.
  apply (f_equal (@rev char)) in H.
  rewrite rev_involutive, rev_app_distr in H. simpl in H.
  exact (lstrip_head _ _ _ H).
Qed.

(** ... nor start with it. *)
Lemma strip_head (s t : str) (c : char) :
  strip s = c :: t -> isspace c = false.
Proof.
  unfold strip, rstrip.
  destruct (lstrip s) as [|x u] eqn:E; [discriminate|].
  pose proof (lstrip_head _ _ _ E) as Hx.
  simpl. intros H.
  assert (G : forall v, lstrip (v ++ [x]) <> [] /\
              last (lstrip (v ++ [x])) x = x).
  { induction v as [|y v IHv]; simpl.
    - rewrite Hx. split; [discriminate | reflexivity].
    - destruct (isspace y); [exact IHv|].
      split; [discriminate|].
      destruct (v ++ [x]) eqn:Ev; [destruct v; discriminate|].
      rewrite <- Ev. clear. induction v; simpl; [reflexivity|].
      destruct (v ++ [x]) eqn:Ev; [destruct v; discriminate | exact IHv]. }
  destruct (G (rev u)) as [G1 G2].
  destruct (lstrip (rev u ++ [x])) as [|z l] eqn:El using rev_ind;
    [contradiction|].
  clear IHl. rewrite last_last in G2. subst z.
  rewrite rev_app_distr in H. simpl in H. inversion H. subst. exact Hx.
Qed.

(** ** Character classes *)

Ltac bool_to_prop :=
  repeat rewrite ?orb_true_iff, ?andb_true_iff, ?N.leb_le, ?N.eqb_eq in *.

Lemma isspace_bound (c : char) : isspace c = true -> c <= 12288.
Proof. unfold isspace. bool_to_prop. lia. Qed.

Lemma islinebreak_isspace (c : char) :
  islinebreak c = true -> isspace c = true.
Proof. unfold islinebreak, isspace. bool_to_prop. lia. Qed.

Lemma below_bound (P : char -> bool) (bound : nat) (c : char) :
  forallb P (map N.of_nat (seq 0 (S bound))) = true ->
  c <= N.of_nat bound -> P c = true.
Proof.
  intros Hall Hc. rewrite forallb_forall in Hall. apply Hall.
  apply in_map_iff. exists (N.to_nat c). split; [apply N2Nat.id|].
  apply in_seq. lia.
Qed.

(** No decimal digit is white space. *)
Lemma isdecimal_not_space (c : char) :
  isdecimal c = true -> isspace c = false.
Proof.
  intros Hd. destruct (isspace c) eqn:Hs; [|reflexivity]. exfalso.
  pose proof (isspace_bound c Hs) as Hb.
  assert (H : negb (isspace c && isdecimal c) = true).
  { apply (below_bound (fun c => negb (isspace c && isdecimal c))
                       (N.to_nat 12288));
      [vm_compute; reflexivity | rewrite N2Nat.id; exact Hb]. }
  rewrite Hs, Hd in H. discriminate.
Qed.

Lemma ascii_digit_decimal (c : char) :
  is_ascii_digit c = true -> isdecimal c = true.
Proof.
  intros H. unfold isdecimal, DECIMAL_RANGES. cbn [existsb].
  unfold in_range at 1. cbn [fst snd]. unfold is_ascii_digit in H.
  rewrite H. reflexivity.
Qed.

Lemma ascii_digit_plain (c : char) : is_ascii_digit c = true -> plain c = true.
Proof.
  intros H. unfold plain.
  rewrite (isdecimal_not_space c (ascii_digit_decimal c H)).
  unfold is_ascii_digit in H.
  apply andb_true_iff in H. destruct H as [_ H]. apply N.leb_le in H.
  destruct (c =? PIPE) eqn:E; [|reflexivity].
  apply N.eqb_eq in E. unfold PIPE in E. lia.
Qed.

Lemma plain_not_space (c : char) : plain c = true -> isspace c = false.
Proof.
  unfold plain. intros H. apply andb_true_iff in H.
  apply negb_true_iff. exact (proj1 H).
Qed.

Lemma plain_not_pipe (c : char) : plain c = true -> (c =? PIPE) = false.
Proof.
  unfold plain. intros H. apply andb_true_iff in H.
  apply negb_true_iff. exact (proj2 H).
Qed.

(** ** The text of an integer *)

Lemma digits_from_digits (fuel : nat) (n : N) (acc : str) :
  forallb is_ascii_digit acc = true ->
  forallb is_ascii_digit (digits_from fuel n acc) = true.
Proof.
  revert n acc. induction fuel as [|fuel IH]; intros n acc Hacc; simpl.
  - exact Hacc.
  - assert (Hd : forallb is_ascii_digit ((48 + n mod 10) :: acc) = true).
    { cbn [forallb]. rewrite Hacc, andb_true_r.
      unfold is_ascii_digit.
      assert (H : n mod 10 < 10) by (apply N.mod_lt; discriminate).
      revert H. generalize (n mod 10). intros d H.
      apply andb_true_iff. split; apply N.leb_le; lia. }
    destruct (n <? 10); [exact Hd | apply IH; exact Hd].
Qed.

Lemma digits_from_nonempty (fuel : nat) (n : N) (acc : str) :
  digits_from (S fuel) n acc <> [].
Proof.
  revert n acc. induction fuel as [|fuel IH]; intros n acc.
  - simpl. destruct (n <? 10); discriminate.
  - change (digits_from (S (S fuel)) n acc)
      with (let acc' := (48 + n mod 10) :: acc in
            if n <? 10 then acc' else digits_from (S fuel) (n / 10) acc').
    cbv zeta. destruct (n <? 10); [discriminate | apply IH].
Qed.

Lemma N_str_digits (n : N) : forallb is_ascii_digit (N_str n) = true.
Proof. apply digits_from_digits. reflexivity. Qed.

Lemma N_str_nonempty (n : N) : N_str n <> [].
Proof. apply digits_from_nonempty. Qed.

Lemma int_str_nonempty (z : Z) : int_str z <> [].
Proof. destruct z as [|p|p]; [apply N_str_nonempty .. | discriminate]. Qed.


Lemma forallb_impl {A : Type} (P Q : A -> bool) (l : list A) :
  (forall x, P x = true -> Q x = true) ->
  forallb P l = true -> forallb Q l = true.
Proof.
  intros HPQ. rewrite !forallb_forall. intros H x Hx. apply HPQ, H, Hx.
Qed.

Lemma int_str_plain (z : Z) : forallb plain (int_str z) = true.
Proof.
  assert (H : forall n, forallb plain (N_str n) = true).
  { intros n. exact (forallb_impl _ _ _ ascii_digit_plain (N_str_digits n)). }
  destruct z as [|p|p]; [apply H .. |].
  cbn [int_str forallb]. rewrite H. reflexivity.
Qed.

(** ** Runs of three hyphens *)

Lemma startswith_mark_digits (c : char) (t : str) :
  forallb is_ascii_digit t = true ->
  startswith (lit "---") (c :: t) = false.
Proof.
  intros Ht. change (lit "---") with [HYPHEN; HYPHEN; HYPHEN].
  cbn [startswith]. destruct t as [|d t]; [apply andb_false_r|].
  cbn [forallb] in Ht. apply andb_true_iff in Ht. destruct Ht as [Hd _].
  assert (E : (HYPHEN =? d) = false).
  { apply N.eqb_neq. intros <-. discriminate. }
  rewrite E. apply andb_false_r.
Qed.

Lemma contains_mark_digits (t : str) :
  forallb is_ascii_digit t = true -> contains (lit "---") t = false.
Proof.
  induction t as [|c t IH]; intros Ht; [reflexivity|].
  cbn [forallb] in Ht. apply andb_true_iff in Ht. destruct Ht as [Hc Ht].
  cbn [contains]. rewrite (startswith_mark_digits c t Ht), (IH Ht).
  reflexivity.
Qed.

Lemma int_str_no_mark (z : Z) : contains (lit "---") (int_str z) = false.
Proof.
  destruct z as [|p|p];
    [apply contains_mark_digits, N_str_digits .. |].
  cbn [int_str contains].
  rewrite (startswith_mark_digits HYPHEN _ (N_str_digits (N.pos p))).
  apply contains_mark_digits, N_str_digits.
Qed.

(** A character other than the hyphen cuts the search in two. *)
Lemma contains_mark_cut (x y : str) (c : char) :
  (HYPHEN =? c) = false ->
  contains (lit "---") (x ++ c :: y) =
  contains (lit "---") x || contains (lit "---") y.
Proof.
  intros Hc. change (lit "---") with [HYPHEN; HYPHEN; HYPHEN].
  induction x as [|d x IH].
  - cbn [app contains startswith]. rewrite Hc. reflexivity.
  - cbn [app contains]. rewrite IH.
    assert (E : startswith [HYPHEN; HYPHEN; HYPHEN] (d :: x ++ c :: y) =
                startswith [HYPHEN; HYPHEN; HYPHEN] (d :: x)).
    { destruct x as [|e [|f x]]; cbn [app startswith]; rewrite ?Hc;
        rewrite ?andb_false_r; reflexivity. }
    rewrite E. apply orb_assoc.
Qed.

(** ** Trimming and splitting *)

Lemma lstrip_app_nonspace (x y : str) (c : char) :
  isspace c = false -> lstrip (x ++ c :: y) = lstrip x ++ c :: y.
Proof.
  intros Hc. induction x as [|d x IH]; simpl.
  - rewrite Hc. reflexivity.
  - destruct (isspace d); [exact IH | reflexivity].
Qed.

Lemma rstrip_snoc (s : str) (c : char) :
  rstrip (s ++ [c]) = if isspace c then rstrip s else s ++ [c].
Proof.
  unfold rstrip. rewrite rev_app_distr. simpl.
  destruct (isspace c); [reflexivity|].
  simpl. rewrite rev_involutive. reflexivity.
Qed.

Lemma rstrip_nil : rstrip [] = [].
Proof. reflexivity. Qed.

Lemma lstrip_snoc_space (l : str) (c : char) :
  isspace c = true -> rstrip (lstrip (l ++ [c])) = rstrip (lstrip l).
Proof.
  intros Hc. induction l as [|d l IH]; simpl.
  - rewrite Hc. reflexivity.
  - destruct (isspace d); [exact IH|].
    change (d :: l ++ [c]) with ((d :: l) ++ [c]).
    rewrite rstrip_snoc, Hc. reflexivity.
Qed.

Lemma strip_snoc_space (l : str) (c : char) :
  isspace c = true -> strip (l ++ [c]) = strip l.
Proof. exact (lstrip_snoc_space l c). Qed.

Lemma strip_cons_space (l : str) (c : char) :
  isspace c = true -> strip (c :: l) = strip l.
Proof. intros Hc. unfold strip. simpl. rewrite Hc. reflexivity. Qed.

(** A text that starts and ends with a character that is not white space
    is its own trimming. *)
Lemma strip_fixed (c d : char) (s : str) :
  isspace c = false -> isspace d = false ->
  strip (c :: s ++ [d]) = c :: s ++ [d].
Proof.
  intros Hc Hd. unfold strip. simpl. rewrite Hc.
  change (c :: s ++ [d]) with ((c :: s) ++ [d]).
  rewrite rstrip_snoc, Hd. reflexivity.
Qed.

Lemma split_nonempty (sep : char) (s : str) : split sep s <> [].
Proof.
  destruct s as [|c s]; simpl; [discriminate|].
  destruct (c =? sep); [discriminate|].
  destruct (split sep s); discriminate.
Qed.

Lemma split_cons_other (sep c : char) (s : str) :
  (c =? sep) = false ->
  split sep (c :: s) = (c :: hd [] (split sep s)) :: tl (split sep s).
Proof.
  intros H. simpl. rewrite H.
  pose proof (split_nonempty sep s).
  destruct (split sep s); [contradiction | reflexivity].
Qed.

(** Text without the separator stays in the first part. *)
Lemma split_app_first (sep : char) (a t : str) :
  forallb (fun c => negb (c =? sep)) a = true ->
  split sep (a ++ t) = (a ++ hd [] (split sep t)) :: tl (split sep t).
Proof.
  intros Ha. induction a as [|c a IH]; simpl in *.
  - pose proof (split_nonempty sep t).
    destruct (split sep t); [contradiction | reflexivity].
  - apply andb_true_iff in Ha. destruct Ha as [Hc Ha].
    apply negb_true_iff in Hc. rewrite Hc, (IH Ha). reflexivity.
Qed.

Lemma split_snoc (sep : char) (s : str) (c : char) :
  split sep (s ++ [c]) =
  if c =? sep then split sep s ++ [[]]
  else removelast (split sep s) ++ [last (split sep s) [] ++ [c]].
Proof.
  induction s as [|d s IH]; simpl.
  - destruct (c =? sep); reflexivity.
  - destruct (d =? sep) eqn:Ed.
    + rewrite IH. pose proof (split_nonempty sep s).
      destruct (c =? sep); [reflexivity|].
      destruct (split sep s) as [|l ls]; [contradiction|]. reflexivity.
    + rewrite IH. pose proof (split_nonempty sep s) as Hne.
      destruct (c =? sep).
      * destruct (split sep s) as [|l ls]; [contradiction|]. reflexivity.
      * destruct (split sep s) as [|l [|l2 ls]]; [contradiction| |].
        -- reflexivity.
        -- simpl. reflexivity.
Qed.

(** ** Bullets *)

Lemma bullets_cons_line (l : str) (ls : list str) :
  map (fun line => skipn 2 (strip line))
      (filter (fun line => startswith BULLET (strip line)) (l :: ls)) =
  (if startswith BULLET (strip l) then [skipn 2 (strip l)] else []) ++
  map (fun line => skipn 2 (strip line))
      (filter (fun line => startswith BULLET (strip line)) ls).
Proof.
  cbn [filter]. destruct (startswith BULLET (strip l)); reflexivity.
Qed.

Lemma bullets_cons_space (c : char) (t : str) :
  isspace c = true -> bullets (c :: t) = bullets t.
Proof.
  intros Hc. unfold bullets. destruct (c =? NL) eqn:E.
  - cbn [split]. rewrite E. rewrite bullets_cons_line. reflexivity.
  - rewrite (split_cons_other NL c t E).
    pose proof (split_nonempty NL t) as Hne.
    destruct (split NL t) as [|l ls]; [contradiction|].
    cbn [hd tl]. rewrite !bullets_cons_line, (strip_cons_space l c Hc).
    reflexivity.
Qed.

Lemma bullets_lstrip (t : str) : bullets (lstrip t) = bullets t.
Proof.
  induction t as [|c t IH]; simpl; [reflexivity|].
  destruct (isspace c) eqn:Hc; [|reflexivity].
  rewrite IH. symmetry. exact (bullets_cons_space c t Hc).
Qed.

Lemma bullets_snoc_space (t : str) (c : char) :
  isspace c = true -> bullets (t ++ [c]) = bullets t.
Proof.
  intros Hc. unfold bullets. rewrite split_snoc.
  destruct (c =? NL).
  - rewrite filter_app, map_app, bullets_cons_line. apply app_nil_r.
  - pose proof (split_nonempty NL t) as Hne.
    rewrite (app_removelast_last [] Hne) at 3.
    rewrite !filter_app, !map_app. f_equal.
    rewrite !bullets_cons_line, (strip_snoc_space _ c Hc). reflexivity.
Qed.

Lemma bullets_rstrip (t : str) : bullets (rstrip t) = bullets t.
Proof.
  induction t as [|c t IH] using rev_ind; [reflexivity|].
  rewrite rstrip_snoc. destruct (isspace c) eqn:Hc; [|reflexivity].
  rewrite IH. symmetry. exact (bullets_snoc_space t c Hc).
Qed.

(** Trimming the section before splitting it loses no bullet. *)
Lemma bullets_strip (t : str) : bullets (strip t) = bullets t.
Proof. unfold strip. rewrite bullets_rstrip. apply bullets_lstrip. Qed.

(** ** Lines *)

Definition no_break (c : char) : bool := negb (islinebreak c).

(** A line break after [content] ends the line in progress, whatever
    comes next. *)
Lemma splitlines_from_break (content t cur : str) :
  splitlines_from cur (content ++ NL :: t) =
  splitlines_from cur (content ++ [NL]) ++ splitlines_from [] t.
Proof.
  revert cur.
  induction content as [content IH] using (induction_ltof1 _ (@length char)).
  unfold ltof in IH. intros cur.
  destruct content as [|c content]; [reflexivity|].
  cbn [app splitlines_from].
  destruct (islinebreak c).
  - destruct (c =? CR).
    + destruct content as [|d content].
      * reflexivity.
      * cbn [app]. destruct (d =? NL).
        -- cbn [app]. f_equal. apply IH. simpl. lia.
        -- cbn [app]. f_equal. apply (IH (d :: content)). simpl. lia.
    + cbn [app]. f_equal. apply IH. simpl. lia.
  - apply IH. simpl. lia.
Qed.

(** Ending a text with a line break adds at most one empty line. *)
Lemma splitlines_from_final_break (content cur : str) :
  exists extra, (extra = [] \/ extra = [[]]) /\
    splitlines_from cur (content ++ [NL]) = splitlines_from cur content ++ extra.
Proof.
  revert cur.
  induction content as [content IH] using (induction_ltof1 _ (@length char)).
  unfold ltof in IH. intros cur.
  destruct content as [|c content].
  - destruct cur as [|x cur].
    + exists [[]]. split; [right|]; reflexivity.
    + exists []. split; [left|]; reflexivity.
  - cbn [app splitlines_from].
    destruct (islinebreak c).
    + destruct (c =? CR).
      * destruct content as [|d content].
        -- exists []. split; [left|]; reflexivity.
        -- cbn [app]. destruct (d =? NL).
           ++ destruct (IH content ltac:(simpl; lia) []) as (extra & He & E).
              exists extra. split; [exact He|]. rewrite E. reflexivity.
           ++ destruct (IH (d :: content) ltac:(simpl; lia) [])
                as (extra & He & E).
              exists extra. split; [exact He|].
              cbn [app] in E. rewrite E. reflexivity.
      * destruct (IH content ltac:(simpl; lia) []) as (extra & He & E).
        exists extra. split; [exact He|]. rewrite E. reflexivity.
    + apply IH. simpl. lia.
Qed.

(** A text without line boundary is one line. *)
Lemma splitlines_from_line (l t cur : str) :
  forallb no_break l = true ->
  splitlines_from cur (l ++ NL :: t) = (rev cur ++ l) :: splitlines_from [] t.
Proof.
  revert cur. induction l as [|c l IH]; intros cur Hl.
  - rewrite app_nil_r. reflexivity.
  - cbn [forallb] in Hl. apply andb_true_iff in Hl. destruct Hl as [Hc Hl].
    unfold no_break in Hc. apply negb_true_iff in Hc.
    cbn [app splitlines_from]. rewrite Hc, (IH (c :: cur) Hl).
    cbn [rev]. rewrite <- app_assoc. reflexivity.
Qed.

Lemma splitlines_from_last (l cur : str) :
  forallb no_break l = true -> l <> [] ->
  splitlines_from cur l = [rev cur ++ l].
Proof.
  revert cur. induction l as [|c l IH]; intros cur Hl Hne; [contradiction|].
  cbn [forallb] in Hl. apply andb_true_iff in Hl. destruct Hl as [Hc Hl].
  unfold no_break in Hc. apply negb_true_iff in Hc.
  cbn [splitlines_from]. rewrite Hc.
  destruct l as [|d l].
  - reflexivity.
  - rewrite (IH (c :: cur) Hl) by discriminate.
    cbn [rev]. rewrite <- app_assoc. reflexivity.
Qed.

(** ** Rows and cells *)

(** A cell as [record] writes it, and a row made of cells. *)
Definition pad (x : str) : str := SPACE :: x ++ [SPACE].

Definition row_of_cells (cells : list str) : str :=
  PIPE :: flat_map (fun c => c ++ [PIPE]) cells.

Definition pipe_free (x : str) : bool := forallb (fun c => negb (c =? PIPE)) x.

Lemma forallb_app_true {A : Type} (P : A -> bool) (a b : list A) :
  forallb P a = true -> forallb P b = true -> forallb P (a ++ b) = true.
Proof. intros Ha Hb. rewrite forallb_app, Ha, Hb. reflexivity. Qed.

Lemma strip_pad (x : str) : strip (pad x) = strip x.
Proof.
  unfold pad. rewrite strip_cons_space by reflexivity.
  apply strip_snoc_space. reflexivity.
Qed.

Lemma strip_id (x : str) :
  isspace (hd SPACE x) = false -> isspace (last x SPACE) = false ->
  strip x = x.
Proof.
  intros Hh Hl. destruct x as [|c x]; [discriminate|].
  unfold strip. cbn [hd] in Hh. cbn [lstrip]. rewrite Hh.
  assert (Hne : c :: x <> []) by discriminate.
  rewrite (app_removelast_last SPACE Hne).
  rewrite rstrip_snoc, Hl. reflexivity.
Qed.

Lemma last_in {A : Type} (l : list A) (d : A) : l <> [] -> In (last l d) l.
Proof.
  intros Hne. rewrite (app_removelast_last d Hne) at 2.
  apply in_or_app. right. left. reflexivity.
Qed.

(** Text made of cell characters is its own trimming. *)
Lemma strip_plain (x : str) :
  x <> [] -> forallb plain x = true -> strip x = x.
Proof.
  intros Hne Hx. rewrite forallb_forall in Hx. apply strip_id.
  - destruct x as [|c x]; [contradiction|].
    apply plain_not_space, Hx. left. reflexivity.
  - apply plain_not_space, Hx, last_in, Hne.
Qed.

Lemma plain_pipe_free (x : str) : forallb plain x = true -> pipe_free x = true.
Proof.
  apply forallb_impl. intros c Hc. apply negb_true_iff, plain_not_pipe, Hc.
Qed.

Lemma pipe_free_pad (x : str) : pipe_free x = true -> pipe_free (pad x) = true.
Proof.
  intros Hx. unfold pipe_free, pad in *.
  cbn [forallb]. apply forallb_app_true; [exact Hx | reflexivity].
Qed.

Lemma split_cells (cells : list str) :
  forallb pipe_free cells = true ->
  split PIPE (flat_map (fun c => c ++ [PIPE]) cells) = cells ++ [[]].
Proof.
  induction cells as [|c cells IH]; intros Hc; [reflexivity|].
  cbn [forallb] in Hc. apply andb_true_iff in Hc. destruct Hc as [Hc Hcs].
  cbn [flat_map]. rewrite <- app_assoc. cbn [app].
  rewrite (split_app_first PIPE c _ Hc).
  cbn [split]. change (PIPE =? PIPE) with true. cbn [hd tl].
  rewrite app_nil_r, (IH Hcs). reflexivity.
Qed.

(** The parts of a row are its cells between two empty parts. *)
Lemma split_row_of_cells (cells : list str) :
  forallb pipe_free cells = true ->
  split PIPE (row_of_cells cells) = [] :: cells ++ [[]].
Proof.
  intros Hc. unfold row_of_cells. cbn [split].
  change (PIPE =? PIPE) with true. cbv iota.
  rewrite (split_cells cells Hc). reflexivity.
Qed.

Lemma contains_mark_cells (cells : list str) :
  contains (lit "---") (flat_map (fun c => c ++ [PIPE]) cells) =
  existsb (contains (lit "---")) cells.
Proof.
  induction cells as [|c cells IH]; [reflexivity|].
  cbn [flat_map existsb]. rewrite <- app_assoc. cbn [app].
  rewrite contains_mark_cut by reflexivity. rewrite IH. reflexivity.
Qed.

Lemma contains_mark_row (cells : list str) :
  contains (lit "---") (row_of_cells cells) =
  existsb (contains (lit "---")) cells.
Proof.
  unfold row_of_cells. rewrite <- contains_mark_cells.
  exact (contains_mark_cut [] _ PIPE eq_refl).
Qed.

Lemma contains_mark_pad (x : str) :
  contains (lit "---") (pad x) = contains (lit "---") x.
Proof.
  unfold pad.
  change (SPACE :: x ++ [SPACE]) with ([] ++ SPACE :: x ++ SPACE :: []).
  rewrite !contains_mark_cut by reflexivity.
  change (contains (lit "---") []) with false.
  rewrite orb_false_r. reflexivity.
Qed.

Lemma no_break_cells (cells : list str) :
  forallb (forallb no_break) cells = true ->
  forallb no_break (row_of_cells cells) = true.
Proof.
  intros Hc. unfold row_of_cells. cbn [forallb].
  change (no_break PIPE) with true. cbn [andb].
  induction cells as [|c cells IH]; [reflexivity|].
  cbn [forallb] in Hc. apply andb_true_iff in Hc. destruct Hc as [Hc Hcs].
  cbn [flat_map]. apply forallb_app_true; [|exact (IH Hcs)].
  apply forallb_app_true; [exact Hc | reflexivity].
Qed.

Lemma plain_no_break (x : str) :
  forallb plain x = true -> forallb no_break x = true.
Proof.
  apply forallb_impl. intros c Hc. unfold no_break.
  destruct (islinebreak c) eqn:E; [|reflexivity].
  apply islinebreak_isspace in E. rewrite (plain_not_space c Hc) in E.
  discriminate.
Qed.

Lemma no_break_pad (x : str) :
  forallb no_break x = true -> forallb no_break (pad x) = true.
Proof.
  intros Hx. unfold pad. cbn [forallb].
  apply forallb_app_true; [exact Hx | reflexivity].
Qed.

(** A row starts and ends with the column delimiter. *)
Lemma strip_row_of_cells (c : str) (cells : list str) :
  strip (row_of_cells (c :: cells)) = row_of_cells (c :: cells).
Proof.
  assert (Hne : c :: cells <> []) by discriminate.
  unfold row_of_cells. rewrite (app_removelast_last [] Hne).
  rewrite flat_map_app. cbn [flat_map]. rewrite app_nil_r, app_assoc.
  apply strip_fixed; reflexivity.
Qed.

(** The row [record] writes, as cells. *)
Lemma new_record_row_cells {R : PyRuntime} (a : str) (sets reps : Z)
      (kg volume : pyfloat) :
  new_record_row a sets reps kg volume =
  row_of_cells [pad a; pad (int_str sets); pad (int_str reps);
                pad (float_str kg); pad (float_str volume)].
Proof.
  unfold new_record_row, row_of_cells, pad.
  change (lit "| ") with [PIPE; SPACE].
  change (lit " | ") with [SPACE; PIPE; SPACE].
  change (lit " |") with [SPACE; PIPE].
  cbn [flat_map]. repeat (rewrite <- ?app_assoc; cbn [app]).
  reflexivity.
Qed.

(* ===================================================================== *)
(** * Properties of the matcher *)
(* ===================================================================== *)

Lemma startswith_skipn (p s : str) :
  startswith p s = true -> s = p ++ skipn (length p) s.
Proof.
  intros H. apply startswith_iff in H. destruct H as (t & ->).
  rewrite skipn_app, skipn_all, Nat.sub_diag. reflexivity.
Qed.


Lemma capture_prefix (a s : str) : capture (a ++ s) s = a.
Proof.
  unfold capture. rewrite length_app, Nat.add_sub.
  rewrite firstn_app, Nat.sub_diag, firstn_all. simpl.
  apply app_nil_r.
Qed.

(** Literal text at the head of a pattern. *)
Lemma rmatch_lits (p : str) (r : regex) (o g s : str) :
  rmatch (lits p ++ r) o g s =
  if startswith p s then rmatch r o g (skipn (length p) s) else None.
Proof.
  revert s. induction p as [|x p IH]; intros s; [reflexivity|].
  destruct s as [|y s]; [reflexivity|].
  cbn [lits map app rmatch startswith length skipn].
  unfold chr_is at 1. destruct (x =? y); [apply IH | reflexivity].
Qed.

(** The first suffix of [s] that [k] accepts. *)
Fixpoint first_suffix {X : Type} (k : str -> option X) (s : str) : option X :=
  match k s with
  | Some r => Some r
  | None => match s with
            | [] => None
            | _ :: s' => first_suffix k s'
            end
  end.

Lemma first_suffix_ext {X : Type} (k k' : str -> option X) (s : str) :
  (forall t, k t = k' t) -> first_suffix k s = first_suffix k' s.
Proof.
  intros H. induction s as [|c s IH]; simpl; rewrite H;
    [reflexivity | rewrite IH; reflexivity].
Qed.

Lemma many_lazy_any {X : Type} (k : str -> option X) (s : str) :
  many_lazy any_char k 0 s = first_suffix k s.
Proof.
  induction s as [|c s IH]; simpl.
  - destruct (k []); reflexivity.
  - destruct (k (c :: s)); [reflexivity | exact IH].
Qed.

Lemma find_first_split (needle s a b : str) :
  find_first needle s = Some (a, b) -> s = a ++ needle ++ b.
Proof.
  revert a. induction s as [|c s IH]; intros a; simpl.
  - destruct (startswith needle []) eqn:E; [|discriminate].
    intros H. inversion H. subst. exact (startswith_skipn _ _ E).
  - destruct (startswith needle (c :: s)) eqn:E.
    + intros H. inversion H. subst. exact (startswith_skipn _ _ E).
    + destruct (find_first needle s) as [[a' b']|]; [|discriminate].
      intros H. inversion H. subst. simpl. f_equal. apply IH. reflexivity.
Qed.

Lemma find_first_none (needle s : str) :
  find_first needle s = None <-> contains needle s = false.
Proof.
  induction s as [|c s IH]; simpl.
  - destruct (startswith needle []); simpl; split; congruence.
  - destruct (startswith needle (c :: s)); simpl; [split; congruence|].
    rewrite <- IH. destruct (find_first needle s) as [[? ?]|]; split; congruence.
Qed.

(** A suffix test through [first_suffix] is a search for the text. *)
Lemma first_suffix_startswith {X : Type} (needle : str) (f : str -> X) (s : str) :
  first_suffix (fun t => if startswith needle t then Some (f t) else None) s =
  match find_first needle s with
  | Some (a, b) => Some (f (needle ++ b))
  | None => None
  end.
Proof.
  induction s as [|c s IH]; simpl.
  - destruct (startswith needle []) eqn:E; [|reflexivity].
    rewrite <- (startswith_skipn _ _ E). reflexivity.
  - destruct (startswith needle (c :: s)) eqn:E.
    + rewrite <- (startswith_skipn _ _ E). reflexivity.
    + rewrite IH. destruct (find_first needle s) as [[a b]|]; reflexivity.
Qed.

Lemma capture_cons (c : char) (b t : str) : capture (c :: b ++ t) t = c :: b.
Proof. exact (capture_prefix (c :: b) t). Qed.

(** The registry pattern at the start of [s]. *)
Lemma match_actions_section (s : str) :
  re_match ACTIONS_SECTION_RE s =
  if startswith (ACTIONS_HEADING ++ [NL]) s then
    match skipn (length (ACTIONS_HEADING ++ [NL])) s with
    | c :: u =>
      match find_first NEXT_HEADING u with
      | Some (b, rest) => Some (c :: b, rest)
      | None => None
      end
    | [] => None
    end
  else None.
Proof.
  unfold re_match, ACTIONS_SECTION_RE. rewrite rmatch_lits.
  destruct (startswith (ACTIONS_HEADING ++ [NL]) s); [|reflexivity].
  destruct (skipn (length (ACTIONS_HEADING ++ [NL])) s) as [|c u];
    [reflexivity|].
  cbn [app rmatch lazy_plus]. cbn [many_lazy]. cbn [any_char].
  rewrite many_lazy_any.
  rewrite (first_suffix_ext
             (fun t => rmatch (Close :: lits NEXT_HEADING) (c :: u) [] t)
             (fun t => if startswith NEXT_HEADING t
                       then Some (capture (c :: u) t,
                                  skipn (length NEXT_HEADING) t)
                       else None)).
  - rewrite (first_suffix_startswith NEXT_HEADING
               (fun t => (capture (c :: u) t, skipn (length NEXT_HEADING) t))).
    destruct (find_first NEXT_HEADING u) as [[b rest]|] eqn:E; [|reflexivity].
    apply find_first_split in E. subst u.
    rewrite capture_cons.
    rewrite skipn_app, skipn_all, Nat.sub_diag. reflexivity.
  - intros t. cbn [rmatch].
    rewrite <- (app_nil_r (lits NEXT_HEADING)), rmatch_lits. reflexivity.
Qed.

Lemma contains_app_r (needle a b : str) :
  contains needle b = true -> contains needle (a ++ b) = true.
Proof.
  intros H. apply contains_iff in H. destruct H as (x & y & ->).
  apply contains_iff. exists (a ++ x), y. rewrite <- app_assoc. reflexivity.
Qed.

(** A heading that has no next heading after it has none further on. *)
Lemma section_of_tail_none (c : char) (s : str) :
  startswith (ACTIONS_HEADING ++ [NL]) (c :: s) = true ->
  re_match ACTIONS_SECTION_RE (c :: s) = None ->
  section_of s = None.
Proof.
  intros Hs Hm. rewrite match_actions_section, Hs in Hm.
  pose proof (startswith_skipn _ _ Hs) as Es.
  set (u := skipn (length (ACTIONS_HEADING ++ [NL])) (c :: s)) in *.
  unfold section_of.
  destruct (find_first (ACTIONS_HEADING ++ [NL]) s) as [[before [|c2 u2]]|] eqn:E;
    [reflexivity| |reflexivity].
  destruct (find_first NEXT_HEADING u2) as [[b rest]|] eqn:E2; [|reflexivity].
  exfalso.
  apply find_first_split in E. apply find_first_split in E2. subst u2.
  assert (Hu : skipn 7 s = u).
  { change (skipn 8 (c :: s) = u). reflexivity. }
  assert (Hc : contains NEXT_HEADING (skipn 1 u) = true).
  { rewrite <- Hu, skipn_skipn. rewrite E.
    change (before ++ (ACTIONS_HEADING ++ [NL]) ++ c2 :: b ++ NEXT_HEADING ++ rest)
      with (before ++ (ACTIONS_HEADING ++ [NL] ++ [c2]) ++ b ++ NEXT_HEADING ++ rest).
    rewrite app_assoc.
    rewrite skipn_app.
    apply contains_app_r.
    replace (1 + 7 - length (before ++ ACTIONS_HEADING ++ [NL] ++ [c2]))%nat
      with 0%nat
      by (rewrite length_app;
          change (length (ACTIONS_HEADING ++ [NL] ++ [c2])) with 9%nat; lia).
    simpl. apply contains_app_r with (a := b).
    apply contains_iff. exists [], rest. reflexivity. }
  destruct u as [|c1 u1]; [discriminate|].
  simpl in Hc. apply not_false_iff_true in Hc. apply Hc.
  apply find_first_none.
  destruct (find_first NEXT_HEADING u1) as [[? ?]|]; [discriminate|reflexivity].
Qed.

Lemma search_actions_section (before s : str) :
  search_from ACTIONS_SECTION_RE before s =
  match section_of s with
  | Some (pre, g, rest) => Some (rev before ++ pre, g, rest)
  | None => None
  end.
Proof.
  revert before. induction s as [|c s IH]; intros before.
  - reflexivity.
  - cbn [search_from].
    destruct (re_match ACTIONS_SECTION_RE (c :: s)) as [[g rest]|] eqn:Em.
    + rewrite match_actions_section in Em. unfold section_of.
      cbn [find_first].
      destruct (startswith (ACTIONS_HEADING ++ [NL]) (c :: s)); [|discriminate].
      destruct (skipn (length (ACTIONS_HEADING ++ [NL])) (c :: s)) as [|c1 u];
        [discriminate|].
      destruct (find_first NEXT_HEADING u) as [[b r]|]; [|discriminate].
      inversion Em. subst. rewrite app_nil_r. reflexivity.
    + rewrite IH.
      destruct (startswith (ACTIONS_HEADING ++ [NL]) (c :: s)) eqn:Es.
      * rewrite (section_of_tail_none c s Es Em).
        rewrite match_actions_section, Es in Em.
        unfold section_of. cbn [find_first]. rewrite Es.
        destruct (skipn (length (ACTIONS_HEADING ++ [NL])) (c :: s)) as [|c1 u];
          [reflexivity|].
        destruct (find_first NEXT_HEADING u) as [[b r]|];
          [discriminate | reflexivity].
      * unfold section_of. cbn [find_first]. rewrite Es.
        destruct (find_first (ACTIONS_HEADING ++ [NL]) s) as [[pre [|c1 u]]|];
          try reflexivity.
        destruct (find_first NEXT_HEADING u) as [[b r]|]; [|reflexivity].
        cbn [rev]. rewrite <- app_assoc. reflexivity.
Qed.

(** The pattern of [get_actions] finds the registry section. *)
Lemma re_search_section (content : str) :
  re_search ACTIONS_SECTION_RE content = section_of content.
Proof.
  unfold re_search. rewrite search_actions_section.
  destruct (section_of content) as [[[pre g] rest]|]; reflexivity.
Qed.

Lemma parse_actions_section (content : str) :
  parse_actions content =
  match section_of content with
  | Some (_, text, _) => bullets (strip text)
  | None => []
  end.
Proof. unfold parse_actions. rewrite re_search_section. reflexivity. Qed.

(** ** Replacement templates and the heading pattern *)

(** Characters other than the backslash stand for themselves. *)
Lemma parse_template_plain (x : str) (n : nat) (groups : N) (s : str) :
  forallb (fun c => negb (c =? BACKSLASH)) x = true ->
  parse_template (length x + n) groups (x ++ s) =
  option_map (app (map TLit x)) (parse_template n groups s).
Proof.
  intros Hx. induction x as [|c x IH].
  - simpl. destruct (parse_template n groups s); reflexivity.
  - simpl in Hx. apply andb_true_iff in Hx. destruct Hx as [Hc Hx].
    cbn [length Nat.add app parse_template]. rewrite Hc.
    rewrite (IH Hx). unfold tcons.
    destruct (parse_template n groups s); reflexivity.
Qed.

Lemma expand_template_plain (x : str) (t : list tpl) (whole g1 : str) :
  expand_template (map TLit x ++ t) whole g1 = x ++ expand_template t whole g1.
Proof.
  induction x as [|c x IH]; simpl; [reflexivity | rewrite IH; reflexivity].
Qed.

(** The template of [action_add] for a name without backslash. *)
Lemma parse_add_template (name : str) :
  forallb (fun c => negb (c =? BACKSLASH)) name = true ->
  parse_template (S (length (add_template name))) 1 (add_template name) =
  Some (TGroup 1 :: TLit HYPHEN :: TLit SPACE :: map TLit name ++ [TLit NL]).
Proof.
  intros Hn. unfold add_template.
  replace (S (length ([BACKSLASH; 49] ++ BULLET ++ name ++ [BACKSLASH; 110])))
    with (S (S (S (length name + 4))))
    by (rewrite !length_app; simpl; lia).
  change ([BACKSLASH; 49] ++ BULLET ++ name ++ [BACKSLASH; 110])
    with (BACKSLASH :: 49 :: HYPHEN :: SPACE :: name ++ [BACKSLASH; 110]).
  cbn [parse_template].
  change (negb (BACKSLASH =? BACKSLASH)) with false.
  change (49 =? 103) with false. change (49 =? 48) with false.
  change (is_ascii_digit 49) with true.
  change (is_ascii_digit HYPHEN) with false.
  change (49 - 48 <=? 1) with true.
  change (negb (HYPHEN =? BACKSLASH)) with true.
  change (negb (SPACE =? BACKSLASH)) with true.
  cbv iota beta.
  rewrite (parse_template_plain name 4 1 [BACKSLASH; 110] Hn).
  reflexivity.
Qed.

(** The heading pattern at the start of [s]. *)
Lemma match_actions_heading (s : str) :
  re_match ACTIONS_HEADING_RE s =
  if startswith (ACTIONS_HEADING ++ [NL]) s
  then Some (ACTIONS_HEADING ++ [NL], skipn (length (ACTIONS_HEADING ++ [NL])) s)
  else None.
Proof.
  unfold re_match, ACTIONS_HEADING_RE. cbn [app rmatch].
  rewrite rmatch_lits.
  destruct (startswith (ACTIONS_HEADING ++ [NL]) s) eqn:E; [|reflexivity].
  cbn [rmatch]. rewrite (startswith_skipn _ _ E) at 1.
  rewrite capture_prefix. reflexivity.
Qed.

Lemma search_actions_heading (before s : str) :
  search_from ACTIONS_HEADING_RE before s =
  match find_first (ACTIONS_HEADING ++ [NL]) s with
  | Some (a, b) => Some (rev before ++ a, ACTIONS_HEADING ++ [NL], b)
  | None => None
  end.
Proof.
  revert before. induction s as [|c s IH]; intros before.
  - reflexivity.
  - cbn [search_from find_first]. rewrite match_actions_heading.
    destruct (startswith (ACTIONS_HEADING ++ [NL]) (c :: s)).
    + rewrite app_nil_r. reflexivity.
    + rewrite IH.
      destruct (find_first (ACTIONS_HEADING ++ [NL]) s) as [[a b]|];
        [|reflexivity].
      cbn [rev]. rewrite <- app_assoc. reflexivity.
Qed.

(** What [re.subn] does in [action_add] for a name without backslash. *)
Lemma subn_add_template (name content : str) :
  forallb (fun c => negb (c =? BACKSLASH)) name = true ->
  re_subn_once ACTIONS_HEADING_RE (add_template name) content =
  match find_first (ACTIONS_HEADING ++ [NL]) content with
  | Some (before, rest) =>
    Some (before ++ (ACTIONS_HEADING ++ [NL]) ++ BULLET ++ name ++ [NL] ++ rest,
          1%nat)
  | None => Some (content, 0%nat)
  end.
Proof.
  intros Hn. unfold re_subn_once, re_search.
  rewrite (parse_add_template name Hn), search_actions_heading.
  destruct (find_first (ACTIONS_HEADING ++ [NL]) content) as [[a b]|];
    [|reflexivity].
  cbn [rev app expand_template]. change (1 =? 0) with false. cbv iota.
  change (TLit HYPHEN :: TLit SPACE :: map TLit name ++ [TLit NL])
    with (map TLit (BULLET ++ name) ++ [TLit NL]).
  rewrite expand_template_plain. cbn [expand_template].
  unfold BULLET. rewrite <- !app_assoc. simpl. rewrite <- !app_assoc.
  reflexivity.
Qed.

(** ** First occurrences *)

Lemma startswith_app_long (n x b : str) :
  (length n <= length x)%nat -> startswith n (x ++ b) = startswith n x.
Proof.
  revert x. induction n as [|c n IH]; intros x Hl; [reflexivity|].
  destruct x as [|d x]; simpl in *; [lia|].
  rewrite IH by lia. reflexivity.
Qed.

Lemma find_first_here (n b : str) : find_first n (n ++ b) = Some ([], b).
Proof.
  assert (H : forall s, startswith n s = true ->
                        find_first n s = Some ([], skipn (length n) s)).
  { intros s Hs. destruct s; simpl; rewrite Hs; reflexivity. }
  rewrite H by apply startswith_app.
  rewrite skipn_app, skipn_all, Nat.sub_diag. reflexivity.
Qed.

(** The first occurrence does not depend on what follows it. *)
Lemma find_first_stable (n a b b' : str) :
  find_first n (a ++ n ++ b) = Some (a, b) ->
  find_first n (a ++ n ++ b') = Some (a, b').
Proof.
  induction a as [|c a IH].
  - intros _. exact (find_first_here n b').
  - cbn [app find_first].
    change (c :: a ++ n ++ b) with ((c :: a) ++ n ++ b).
    change (c :: a ++ n ++ b') with ((c :: a) ++ n ++ b').
    rewrite !app_assoc.
    rewrite !(startswith_app_long n ((c :: a) ++ n))
      by (rewrite length_app; lia).
    destruct (startswith n ((c :: a) ++ n)).
    + intros H. inversion H.
    + rewrite <- !app_assoc.
      destruct (find_first n (a ++ n ++ b)) as [[a0 b0]|] eqn:E;
        [|discriminate].
      intros H. inversion H. subst a0 b0.
      rewrite (IH eq_refl). reflexivity.
Qed.

(** Text without line break cannot hold the start of the next heading. *)
Lemma find_first_skip (a t : str) :
  forallb (fun c => negb (c =? NL)) a = true ->
  find_first NEXT_HEADING (a ++ t) =
  match find_first NEXT_HEADING t with
  | Some (b, r) => Some (a ++ b, r)
  | None => None
  end.
Proof.
  intros Ha. induction a as [|c a IH].
  - simpl. destruct (find_first NEXT_HEADING t) as [[? ?]|]; reflexivity.
  - simpl in Ha. apply andb_true_iff in Ha. destruct Ha as [Hc Ha].
    apply negb_true_iff in Hc.
    cbn [app find_first]. unfold NEXT_HEADING at 1. cbn [startswith].
    rewrite N.eqb_sym in Hc. unfold NL in Hc at 1. rewrite Hc.
    cbn [andb]. rewrite (IH Ha).
    destruct (find_first NEXT_HEADING t) as [[? ?]|]; reflexivity.
Qed.

(** ** Greedy repetitions that never give back *)









(** ** Text up to the next column delimiter *)



Lemma find_pipe_app (c r : str) :
  pipe_free c = true -> find_first [PIPE] (c ++ PIPE :: r) = Some (c, r).
Proof.
  intros Hc. induction c as [|x c IH]; [reflexivity|].
  unfold pipe_free in Hc. cbn [forallb] in Hc.
  apply andb_true_iff in Hc. destruct Hc as [Hx Hc].
  apply negb_true_iff in Hx.
  cbn [app find_first startswith]. rewrite N.eqb_sym, Hx. cbn [andb].
  rewrite (IH Hc). reflexivity.
Qed.







(** ** The row pattern, cell by cell *)






Section RunCell.
Variable p : char -> bool.
Hypothesis p_not_space : forall x, p x = true -> isspace x = false.
Hypothesis p_not_pipe : p PIPE = false.









End RunCell.










(** ** All the rows of an exercise *)






Lemma split_find (t : str) :
  split PIPE t =
  match find_first [PIPE] t with
  | Some (c, rest) => c :: split PIPE rest
  | None => [t]
  end.
Proof.
  induction t as [|x t IH]; [reflexivity|].
  cbn [split find_first startswith length skipn].
  rewrite (N.eqb_sym x PIPE).
  destruct (PIPE =? x); cbn [andb]; [reflexivity|].
  rewrite IH. destruct (find_first [PIPE] t) as [[c rest]|]; reflexivity.
Qed.


(** ** The scan over cells *)

Lemma scan_short (a c1 : str) (rest : list str) :
  (length rest < 4)%nat -> scan_cells a (c1 :: rest) = scan_cells a rest.
Proof.
  intros H. destruct rest as [|c2 [|c3 [|c4 [|c5 more]]]];
    try reflexivity. simpl in H. lia.
Qed.






(** ** Cells of a text put together *)


Lemma split_cell (c t : str) :
  pipe_free c = true -> split PIPE (c ++ PIPE :: t) = c :: split PIPE t.
Proof.
  intros Hc. rewrite split_find, (find_pipe_app c t Hc). reflexivity.
Qed.

Lemma split_cells_then (cells : list str) (t : str) :
  forallb pipe_free cells = true ->
  split PIPE (flat_map (fun c => c ++ [PIPE]) cells ++ t) =
  cells ++ split PIPE t.
Proof.
  induction cells as [|c cells IH]; intros Hc; [reflexivity|].
  cbn [forallb] in Hc. apply andb_true_iff in Hc. destruct Hc as [Hc Hcs].
  cbn [flat_map]. rewrite <- !app_assoc. cbn [app].
  rewrite (split_cell c _ Hc), (IH Hcs). reflexivity.
Qed.

(** The cells of a text that ends with rows, one per line. *)
Lemma split_row_then (cells : list str) (t : str) :
  forallb pipe_free cells = true ->
  split PIPE (row_of_cells cells ++ t) = [] :: cells ++ split PIPE t.
Proof.
  intros Hc. unfold row_of_cells.
  change ((PIPE :: flat_map (fun c => c ++ [PIPE]) cells) ++ t)
    with ([] ++ PIPE :: flat_map (fun c => c ++ [PIPE]) cells ++ t).
  rewrite split_cell by reflexivity.
  rewrite (split_cells_then cells t Hc). reflexivity.
Qed.

(** ** The rows of an exercise after a record *)











(* ===================================================================== *)
(** * Properties of the commands *)
(* ===================================================================== *)

Section Properties.
Context {R : PyRuntime}.

(** Unfolding of the monad on concrete command prefixes. *)
Ltac run :=
  unfold cli, main, initialize_storage, get_actions, bind, exists_,
    read_text, ret, raise, print, write_text, append_text, get_today_date,
    lift; simpl.

(** Every action read from the registry has at least one character. *)
Lemma parse_actions_nonempty (content a : str) :
  In a (parse_actions content) -> a <> [].
Proof.
  unfold parse_actions.
  destruct (re_search ACTIONS_SECTION_RE content) as [[[pre txt] rest]|];
    [|intros []].
  rewrite in_map_iff. intros (line & E & Hin).
  apply filter_In in Hin. destruct Hin as [_ Hs].
  apply startswith_iff in Hs. destruct Hs as (t & Et).
  rewrite Et in E. simpl in E. subst t.
  intros ->. change (BULLET ++ []) with ([HYPHEN] ++ [SPACE]) in Et.
  apply strip_last in Et. discriminate.
Qed.

(** ** Storage initialisation *)

(** C9.  [initialize_storage] never overwrites an existing document: when
    the file exists the call changes nothing at all; when it is absent
    the call writes the fixed template, whose registry holds the three
    default exercises and which has a title and a goals section.  After
    any call a second call changes nothing. *)
Theorem initialize_storage_idempotent (w : world) :
  match data_file w with
  | Some _ => initialize_storage w = (Done tt, w)
  | None =>
    initialize_storage w =
    (Done tt, {| data_file := Some TEMPLATE; today := today w;
                 console := console w ++ [MsgCreatingFile] |})
  end
  /\ (let w' := snd (initialize_storage w) in
      initialize_storage w' = (Done tt, w'))
  /\ parse_actions TEMPLATE =
     [lit "深蹲 (Squat)"; lit "卧推 (Bench Press)"; lit "硬拉 (Deadlift)"]
  /\ startswith (lit "# 我的训练日志") TEMPLATE = true
  /\ contains (NL :: lit "## 训练目标") TEMPLATE = true.
Proof.
  split; [|split; [|repeat split; vm_compute; reflexivity]].
  - destruct w as [[c|] d out]; reflexivity.
  - destruct w as [[c|] d out]; reflexivity.
Qed.

Lemma initialize_storage_present (w : world) (content : str) :
  data_file w = Some content -> initialize_storage w = (Done tt, w).
Proof. destruct w as [f d out]. simpl. intros ->. reflexivity. Qed.

(** ** Adding an action *)

(** C6.  When the name is already an entry of the registry, [action add]
    prints the error, exits with status 1 and leaves the file as it was. *)
Theorem action_add_duplicate (w : world) (content name : str) :
  data_file w = Some content ->
  In name (parse_actions content) ->
  let w' := {| data_file := Some content; today := today w;
               console := console w ++ [MsgAlreadyExists name] |} in
  action_add name w = (Raised (Exit 1), w') /\
  cli (action_add name) w = (Raised (Exit 1), w').
Proof.
  intros Hf Hin. apply str_in_In in Hin.
  assert (E : action_add name w =
              (Raised (Exit 1),
               {| data_file := Some content; today := today w;
                  console := console w ++ [MsgAlreadyExists name] |})).
  { destruct w as [f d out]. simpl in Hf. subst f.
    unfold action_add. run. rewrite Hin. reflexivity. }
  split; [exact E|].
  unfold cli, main, bind. rewrite (initialize_storage_present w content Hf).
  exact E.
Qed.

(** ** Resolving the action of a record *)

Lemma find_action_first (q : str) (actions : list str) :
  match find_action q actions with
  | Some a =>
    exists pre post, actions = pre ++ a :: post /\
      contains (str_lower q) (str_lower a) = true /\
      forall x, In x pre -> contains (str_lower q) (str_lower x) = false
  | None =>
    forall x, In x actions -> contains (str_lower q) (str_lower x) = false
  end.
Proof.
  induction actions as [|a actions IH]; simpl.
  - intros x [].
  - destruct (contains (str_lower q) (str_lower a)) eqn:E.
    + exists [], actions. repeat split; [exact E | intros x []].
    + destruct (find_action q actions) as [b|].
      * destruct IH as (pre & post & -> & Hb & Hpre).
        exists (a :: pre), post. repeat split; [exact Hb|].
        intros x [<-|Hx]; [exact E | exact (Hpre x Hx)].
      * intros x [<-|Hx]; [exact E | exact (IH x Hx)].
Qed.

Lemma find_action_In (q : str) (actions : list str) (a : str) :
  find_action q actions = Some a -> In a actions.
Proof.
  intros E. pose proof (find_action_first q actions) as H.
  rewrite E in H. destruct H as (pre & post & -> & _).
  apply in_or_app. right. left. reflexivity.
Qed.



(** C10.  When no entry of the registry contains the query, [record]
    exits with status 1 having only printed: the file is unchanged. *)
Theorem record_not_found_unchanged
        (w : world) (content q : str) (reps sets : Z) (kg : pyfloat) :
  data_file w = Some content ->
  (forall a, In a (parse_actions content) ->
             contains (str_lower q) (str_lower a) = false) ->
  let w' := {| data_file := Some content; today := today w;
               console := console w ++ [MsgActionNotFound q; MsgAddItFirst] |} in
  record q reps kg sets w = (Raised (Exit 1), w') /\
  cli (record q reps kg sets) w = (Raised (Exit 1), w').
Proof.
  intros Hf Hnone.
  assert (E : find_action q (parse_actions content) = None).
  { pose proof (find_action_first q (parse_actions content)) as H.
    destruct (find_action q (parse_actions content)) as [b|];
      [|reflexivity].
    destruct H as (pre & post & Hs & Hb & _).
    rewrite Hnone in Hb; [discriminate|].
    rewrite Hs. apply in_or_app. right. left. reflexivity. }
  assert (Hrec : record q reps kg sets w =
                 (Raised (Exit 1),
                  {| data_file := Some content; today := today w;
                     console := console w ++ [MsgActionNotFound q; MsgAddItFirst] |})).
  { destruct w as [f d out]. simpl in Hf. subst f.
    unfold record. run. rewrite E. simpl.
    rewrite <- app_assoc. reflexivity. }
  split; [exact Hrec|].
  unfold cli, main, bind. rewrite (initialize_storage_present w content Hf).
  exact Hrec.
Qed.

(** ** Where a record is written *)

(** What [record] appends, by whether today's heading occurs in the file. *)
Definition appended_text (today_str content row : str) : str :=
  if contains (date_header today_str) content
  then [NL] ++ row
  else [NL; NL] ++ date_header today_str ++ [NL] ++ TABLE_HEADER ++ [NL] ++ row.

(** What a run of [record_matched] that returns has done. *)
Lemma record_matched_done (a : str) (reps sets : Z) (kg : pyfloat)
      (w : world) (content : str) :
  data_file w = Some content ->
  fst (record_matched a reps kg sets w) = Done tt ->
  exists volume before,
    int_mul_float (sets * reps) kg = Some volume /\
    max_weight_before a content = Some before /\
    record_matched a reps kg sets w =
    (Done tt,
     {| data_file :=
          Some (content ++
                appended_text (today w) content
                              (new_record_row a sets reps kg volume));
        today := today w;
        console := console w ++
                   MsgRecorded sets reps a kg volume ::
                   (if float_gt kg before
                    then [MsgPersonalRecord a kg before] else []) |}).
Proof.
  destruct w as [f d out]. simpl. intros -> Hdone.
  unfold record_matched, appended_text in *. revert Hdone. run.
  destruct (int_mul_float (sets * reps) kg) as [volume|]; simpl;
    [|discriminate].
  destruct (max_weight_before a content) as [before|]; simpl;
    [|discriminate].
  intros _. exists volume, before. repeat split.
  destruct (contains (date_header d) content); simpl;
    destruct (float_gt kg before); simpl; rewrite <- ?app_assoc; reflexivity.
Qed.

(** What a run of [record] that returns has done. *)
Lemma record_done (q : str) (reps sets : Z) (kg : pyfloat)
      (w : world) (content : str) :
  data_file w = Some content ->
  fst (record q reps kg sets w) = Done tt ->
  exists a,
    find_action q (parse_actions content) = Some a /\
    record q reps kg sets w = record_matched a reps kg sets w.
Proof.
  destruct w as [f d out]. simpl. intros -> Hdone.
  unfold record in *. revert Hdone. run.
  destruct (find_action q (parse_actions content)) as [a|] eqn:E; simpl.
  - destruct a as [|c a]; simpl; [discriminate|].
    intros _. exists (c :: a). split; reflexivity.
  - discriminate.
Qed.

(** C7, as the code has it.  A [record] that returns has appended to the
    end of the file, whatever lies between today's heading and the end:
    when today's heading occurs in the file, one line break and the new
    row; otherwise two line breaks, the heading, a line break, the table
    header with its separator row, a line break and the new row. *)
Theorem record_appends_at_end (q : str) (reps sets : Z) (kg : pyfloat)
        (w : world) (content : str) :
  data_file w = Some content ->
  fst (record q reps kg sets w) = Done tt ->
  exists a volume,
    find_action q (parse_actions content) = Some a /\
    int_mul_float (sets * reps) kg = Some volume /\
    let row := new_record_row a sets reps kg volume in
    data_file (snd (record q reps kg sets w)) =
    Some (content ++
          if contains (date_header (today w)) content
          then [NL] ++ row
          else [NL; NL] ++ date_header (today w) ++ [NL] ++ TABLE_HEADER
               ++ [NL] ++ row).
Proof.
  intros Hf Hdone.
  destruct (record_done q reps sets kg w content Hf Hdone) as (a & Ea & Er).
  rewrite Er in Hdone |- *.
  destruct (record_matched_done a reps sets kg w content Hf Hdone)
    as (volume & before & Ev & _ & Em).
  exists a, volume. split; [exact Ea|]. split; [exact Ev|].
  rewrite Em. reflexivity.
Qed.

(** ** The history listing *)

(** One character of the subject against one-character tests. *)
Ltac next_char s x :=
  destruct s as [|x s]; simpl; [discriminate|];
  match goal with
  | |- (if ?b then _ else _) = _ -> _ => destruct b; [|discriminate]
  end.

(** A date heading captures the ten characters of its date. *)
Lemma date_heading_length (s d rest : str) :
  re_match DATE_HEADING_RE s = Some (d, rest) -> length d = 10%nat.
Proof.
  unfold re_match, DATE_HEADING_RE. simpl.
  next_char s h1. next_char s h2. next_char s h3.
  next_char s x1. next_char s x2. next_char s x3. next_char s x4.
  next_char s x5. next_char s x6. next_char s x7. next_char s x8.
  next_char s x9. next_char s x10.
  change (x1 :: x2 :: x3 :: x4 :: x5 :: x6 :: x7 :: x8 :: x9 :: x10 :: s)
    with ([x1; x2; x3; x4; x5; x6; x7; x8; x9; x10] ++ s).
  rewrite capture_prefix. intros H. inversion H. reflexivity.
Qed.

Lemma heading_date_truthy (line d : str) :
  heading_date line = Some d -> truthy (Some d) = true.
Proof.
  unfold heading_date.
  destruct (re_match DATE_HEADING_RE (strip line)) as [[g rest]|] eqn:E;
    [|discriminate].
  simpl. intros H. inversion H. subst g.
  apply date_heading_length in E. destruct d; [discriminate | reflexivity].
Qed.

Lemma last_heading_snoc (seen : list str) (line : str) :
  last_heading (seen ++ [line]) =
  match heading_date line with
  | Some d => Some d
  | None => last_heading seen
  end.
Proof.
  unfold last_heading. rewrite rev_app_distr. cbn [rev app filter].
  destruct (heading_date line) eqn:E; [exact E | reflexivity].
Qed.

Lemma last_heading_truthy (seen : list str) (d : str) :
  last_heading seen = Some d -> truthy (Some d) = true.
Proof.
  unfold last_heading.
  destruct (filter _ (rev seen)) as [|l ls]; [discriminate|].
  apply heading_date_truthy.
Qed.

(** One turn of the loop is the contribution of its line. *)
Lemma history_step_listed (seen : list str) (line : str) :
  history_step (last_heading seen) line =
  (last_heading (seen ++ [line]), listed_at seen line).
Proof.
  rewrite last_heading_snoc.
  unfold history_step, listed_at, heading_date, row_cells.
  set (cells := map strip (split PIPE (strip line))).
  destruct (re_match DATE_HEADING_RE (strip line)) as [[d rest]|];
    cbn [option_map fst]; [reflexivity|].
  destruct (startswith [PIPE] (strip line));
    destruct (contains SEPARATOR_MARK line);
    destruct (last_heading seen) as [d|] eqn:Ed;
    try rewrite (last_heading_truthy seen d Ed);
    cbn [truthy andb negb]; try reflexivity.
  - destruct cells as [|p0 [|a [|s [|r [|k [|v [|p6 [|]]]]]]]];
      try reflexivity.
    destruct a as [|c a]; [reflexivity|]. cbn [truthy andb].
    destruct (contains HEADER_WORD (c :: a)); reflexivity.
Qed.

Lemma flat_map_shift {A : Type} (f : nat -> list A) (n : nat) :
  flat_map f (seq 1 n) = flat_map (fun i => f (S i)) (seq 0 n).
Proof.
  rewrite <- seq_shift. induction (seq 0 n) as [|i l IH]; simpl;
    [reflexivity | rewrite IH; reflexivity].
Qed.

Lemma history_loop_listing (seen lines : list str) :
  history_loop (last_heading seen) lines =
  flat_map (fun i => listed_at (seen ++ firstn i lines) (nth i lines []))
           (seq 0 (length lines)).
Proof.
  revert seen. induction lines as [|line lines IH]; intros seen; [reflexivity|].
  cbn [history_loop length seq flat_map].
  rewrite history_step_listed. cbn [firstn nth].
  rewrite app_nil_r. f_equal.
  rewrite IH, flat_map_shift.
  apply flat_map_ext. intros i. cbn [firstn nth].
  rewrite <- app_assoc. reflexivity.
Qed.

(** C4, as the code has it.  [history] never fails on an existing file.
    The rows it lists are, in the order of the lines of the file, the
    lines that are not date headings, come after some date heading, start
    with the column delimiter once trimmed, contain no run of three
    hyphens anywhere, split into exactly 7 parts and have an action cell
    that is neither empty nor contains the word [Action]; each row carries
    the date of the most recent heading before it.  Every other line is
    skipped. *)
Theorem history_lists_rows_in_order (w : world) (content : str) :
  data_file w = Some content ->
  history_rows content = listing (splitlines content) /\
  history w =
  (Done tt,
   {| data_file := Some content; today := today w;
      console := console w ++
                 [match history_rows content with
                  | [] => MsgNoRecords
                  | rows => MsgHistoryTable rows
                  end] |}).
Proof.
  intros Hf. split.
  - unfold history_rows, listing.
    exact (history_loop_listing [] (splitlines content)).
  - destruct w as [f d out]. simpl in Hf. subst f.
    unfold history. run. destruct (history_rows content); reflexivity.
Qed.

(** [get_actions] fails only for want of the file. *)
Lemma get_actions_total (w : world) :
  get_actions w =
  match data_file w with
  | Some content => (Done (parse_actions content), w)
  | None => (Raised FileNotFoundError, w)
  end.
Proof. unfold get_actions. run. destruct (data_file w); reflexivity. Qed.



(** ** A record, then the history *)

(** An action name that can be read back from a row: no column
    delimiter, no line boundary, no run of three hyphens, and not the
    word [Action]. *)
Definition tidy_name (a : str) : Prop :=
  pipe_free a = true /\ forallb no_break a = true /\
  contains (lit "---") a = false /\ contains HEADER_WORD a = false.

Lemma iso_date_heading (d : str) :
  iso_date d = true ->
  heading_date (date_header d) = Some d /\
  forallb no_break (date_header d) = true.
Proof.
  unfold iso_date.
  destruct d as [|y1 [|y2 [|y3 [|y4 [|h1 [|m1 [|m2 [|h2 [|d1 [|d2 [|]]]]]]]]]]];
    try discriminate.
  intros H. repeat (apply andb_true_iff in H; destruct H as [H ?]).
  repeat match goal with
         | E : (_ =? HYPHEN) = true |- _ => apply N.eqb_eq in E; subst
         end.
  assert (Hs : forall c, isdecimal c = true -> isspace c = false)
    by exact isdecimal_not_space.
  split.
  - unfold heading_date, date_header.
    change (lit "## " ++ [y1; y2; y3; y4; HYPHEN; m1; m2; HYPHEN; d1; d2])
      with (35 :: [35; SPACE; y1; y2; y3; y4; HYPHEN; m1; m2; HYPHEN; d1] ++ [d2]).
    rewrite strip_fixed by auto.
    unfold re_match, DATE_HEADING_RE. simpl.
    repeat match goal with
           | E : isdecimal _ = true |- _ => rewrite E; clear E
           end.
    change (capture ?o ?s) with (capture ([y1; y2; y3; y4; HYPHEN; m1; m2; HYPHEN; d1; d2] ++ []) []).
    rewrite capture_prefix. reflexivity.
  - assert (Hb : forall c, isdecimal c = true -> no_break c = true).
    { intros c Hc. unfold no_break. destruct (islinebreak c) eqn:E;
        [|reflexivity].
      apply islinebreak_isspace in E. rewrite (Hs c Hc) in E. discriminate. }
    unfold date_header. change (lit "## ") with [35; 35; SPACE].
    cbn [app forallb].
    repeat match goal with
           | E : isdecimal ?c = true |- _ => rewrite (Hb c E); clear E
           end.
    reflexivity.
Qed.

Lemma history_loop_app (seen l1 l2 : list str) :
  history_loop (last_heading seen) (l1 ++ l2) =
  history_loop (last_heading seen) l1 ++
  history_loop (last_heading (seen ++ l1)) l2.
Proof.
  revert seen. induction l1 as [|l l1 IH]; intros seen.
  - rewrite app_nil_r. reflexivity.
  - cbn [app history_loop]. rewrite history_step_listed.
    rewrite IH, <- !app_assoc. reflexivity.
Qed.

Lemma history_loop_one (seen : list str) (line : str) :
  history_loop (last_heading seen) [line] = listed_at seen line.
Proof.
  cbn [history_loop]. rewrite history_step_listed. apply app_nil_r.
Qed.

Lemma lstrip_suffix (x : str) : exists w, x = w ++ lstrip x.
Proof.
  induction x as [|c x IH]; [exists []; reflexivity|].
  simpl. destruct (isspace c).
  - destruct IH as (w & E). exists (c :: w). simpl. rewrite <- E. reflexivity.
  - exists []. reflexivity.
Qed.

(** A text that ends with a character that is not white space keeps it
    when trimmed, and the trimmed text is its end. *)
Lemma strip_keeps_end (a : str) :
  isspace (last a SPACE) = false ->
  strip a <> [] /\ exists w, a = w ++ strip a.
Proof.
  intros Hl.
  assert (Hne : a <> []) by (intros ->; discriminate).
  rewrite (app_removelast_last SPACE Hne).
  unfold strip. rewrite (lstrip_app_nonspace _ [] _ Hl).
  rewrite rstrip_snoc, Hl. split.
  - intros E. apply app_eq_nil in E. destruct E as [_ E]. discriminate.
  - destruct (lstrip_suffix (removelast a)) as (w & E).
    exists w. rewrite app_assoc, <- E. reflexivity.
Qed.

(** Registry entries end with a character that is not white space. *)
Lemma parse_actions_end (content a : str) :
  In a (parse_actions content) -> isspace (last a SPACE) = false.
Proof.
  intros Hin. pose proof (parse_actions_nonempty content a Hin) as Hne.
  unfold parse_actions in Hin.
  destruct (re_search ACTIONS_SECTION_RE content) as [[[pre txt] rest]|];
    [|destruct Hin].
  apply in_map_iff in Hin. destruct Hin as (line & E & Hin).
  apply filter_In in Hin. destruct Hin as [_ Hs].
  apply startswith_iff in Hs. destruct Hs as (t & Et).
  rewrite Et in E. change (skipn 2 (BULLET ++ t)) with t in E. subst t.
  rewrite (app_removelast_last SPACE Hne), app_assoc in Et.
  exact (strip_last _ _ _ Et).
Qed.

Lemma listed_at_skip (seen : list str) (line : str) :
  row_cells line = None -> listed_at seen line = [].
Proof.
  intros H. unfold listed_at. rewrite H.
  destruct (heading_date line); [reflexivity|].
  destruct (last_heading seen); reflexivity.
Qed.

Lemma last_heading_skip (seen : list str) (line : str) :
  heading_date line = None ->
  last_heading (seen ++ [line]) = last_heading seen.
Proof. intros H. rewrite last_heading_snoc, H. reflexivity. Qed.

Lemma history_loop_cons (seen : list str) (line : str) (rest : list str) :
  history_loop (last_heading seen) (line :: rest) =
  listed_at seen line ++ history_loop (last_heading (seen ++ [line])) rest.
Proof. cbn [history_loop]. rewrite history_step_listed. reflexivity. Qed.

(** The row of a tidy name is read back by [history]. *)
Lemma row_cells_new_record_row {L : PyRuntimeLaws R} (a : str) (sets reps : Z)
      (kg volume : pyfloat) :
  tidy_name a -> isspace (last a SPACE) = false ->
  let row := new_record_row a sets reps kg volume in
  heading_date row = None /\
  forallb no_break row = true /\
  row <> [] /\
  row_cells row =
  Some (strip a, int_str sets, int_str reps, float_str kg, float_str volume).
Proof.
  intros (Hpipe & Hbreak & Hmark & Hword) Hend row.
  destruct (float_str_cell kg) as (Hk1 & Hk2 & Hk3).
  destruct (float_str_cell volume) as (Hv1 & Hv2 & Hv3).
  destruct (strip_keeps_end a Hend) as (Hne & w & Ew).
  subst row. rewrite new_record_row_cells.
  set (cells := [pad a; pad (int_str sets); pad (int_str reps);
                 pad (float_str kg); pad (float_str volume)]).
  assert (Hpf : forallb pipe_free cells = true).
  { subst cells. cbn [forallb].
    rewrite (pipe_free_pad a Hpipe).
    rewrite !(pipe_free_pad _ (plain_pipe_free _ (int_str_plain _))).
    rewrite (pipe_free_pad _ (plain_pipe_free _ Hk2)).
    rewrite (pipe_free_pad _ (plain_pipe_free _ Hv2)). reflexivity. }
  assert (Hstrip : strip (row_of_cells cells) = row_of_cells cells)
    by apply strip_row_of_cells.
  split; [|split; [|split]].
  - unfold heading_date. rewrite Hstrip. reflexivity.
  - apply no_break_cells. subst cells. cbn [forallb].
    rewrite (no_break_pad a Hbreak).
    rewrite !(no_break_pad _ (plain_no_break _ (int_str_plain _))).
    rewrite (no_break_pad _ (plain_no_break _ Hk2)).
    rewrite (no_break_pad _ (plain_no_break _ Hv2)). reflexivity.
  - discriminate.
  - unfold row_cells. rewrite Hstrip.
    change (startswith [PIPE] (row_of_cells cells)) with true.
    change SEPARATOR_MARK with (lit "---").
    rewrite contains_mark_row. subst cells. cbn [existsb].
    rewrite !contains_mark_pad, Hmark, !int_str_no_mark, Hk3, Hv3.
    cbn [orb negb andb].
    rewrite split_row_of_cells by exact Hpf.
    cbn [app map]. rewrite !strip_pad.
    rewrite !(strip_plain _ (int_str_nonempty _) (int_str_plain _)).
    rewrite (strip_plain _ Hk1 Hk2), (strip_plain _ Hv1 Hv2).
    destruct (strip a) as [|c sa] eqn:Ea; [contradiction|].
    assert (Hw : contains HEADER_WORD (c :: sa) = false).
    { destruct (contains HEADER_WORD (c :: sa)) eqn:E; [|reflexivity].
      rewrite <- Hword. symmetry. rewrite Ew. apply contains_app_r, E. }
    rewrite Hw. reflexivity.
Qed.

Lemma splitlines_append (content t : str) :
  exists extra, (extra = [] \/ extra = [[]]) /\
    splitlines (content ++ NL :: t) = (splitlines content ++ extra) ++ splitlines t.
Proof.
  destruct (splitlines_from_final_break content []) as (extra & He & E).
  exists extra. split; [exact He|].
  unfold splitlines. rewrite splitlines_from_break, E. reflexivity.
Qed.

Lemma history_extra (seen extra : list str) :
  extra = [] \/ extra = [[]] ->
  history_loop (last_heading seen) extra = [] /\
  last_heading (seen ++ extra) = last_heading seen.
Proof.
  intros [-> | ->].
  - rewrite app_nil_r. split; reflexivity.
  - rewrite history_loop_one, (listed_at_skip seen [] eq_refl).
    rewrite last_heading_skip by reflexivity.
    split; reflexivity.
Qed.

(** C2, as the code has it.  Let [record] return, on a day whose date
    the clock writes as [dddd-dd-dd], for a registry entry that is tidy: no
    column delimiter, no line boundary, no run of three hyphens, not the
    word [Action].  Let the document, when the text of today's heading
    occurs in it, hold at least one line that [history] reads as a date
    heading.  Then the history of the new document is the history of the
    old one followed by one entry: the trimmed name, the decimal texts of
    sets and reps, the text of the weight and the text of the volume, which
    is [(sets * reps) * weight]; its date is today when the heading was
    written by this call, and the most recent heading of the document
    otherwise. *)
Theorem record_then_history {L : PyRuntimeLaws R}
        (q : str) (reps sets : Z) (kg : pyfloat) (w : world) (content : str) :
  data_file w = Some content ->
  fst (record q reps kg sets w) = Done tt ->
  iso_date (today w) = true ->
  (contains (date_header (today w)) content = true ->
   last_heading (splitlines content) <> None) ->
  (forall a, find_action q (parse_actions content) = Some a -> tidy_name a) ->
  exists a volume d new_content,
    find_action q (parse_actions content) = Some a /\
    int_mul_float (sets * reps) kg = Some volume /\
    data_file (snd (record q reps kg sets w)) = Some new_content /\
    history_rows new_content =
    history_rows content ++
    [Build_entry d (strip a) (int_str sets) (int_str reps)
                 (float_str kg) (float_str volume)] /\
    last_heading (splitlines new_content) = Some d /\
    (if contains (date_header (today w)) content
     then last_heading (splitlines content) = Some d
     else d = today w).
Proof.
  intros Hf Hdone Hdate Hhead Htidy.
  destruct (record_done q reps sets kg w content Hf Hdone) as (a & Ea & Er).
  rewrite Er in Hdone |- *.
  destruct (record_matched_done a reps sets kg w content Hf Hdone)
    as (volume & before & Ev & _ & Em).
  rewrite Em. cbn [snd data_file].
  pose proof (parse_actions_end content a (find_action_In _ _ _ Ea)) as Hend.
  destruct (row_cells_new_record_row a sets reps kg volume (Htidy a Ea) Hend)
    as (Hrh & Hrb & Hrne & Hrc).
  set (row := new_record_row a sets reps kg volume) in *.
  assert (Hlisted : forall seen d, last_heading seen = Some d ->
            listed_at seen row =
            [Build_entry d (strip a) (int_str sets) (int_str reps)
                         (float_str kg) (float_str volume)]).
  { intros seen d Hd. unfold listed_at. rewrite Hrh, Hd, Hrc. reflexivity. }
  unfold appended_text, history_rows.
  change None with (last_heading []).
  destruct (contains (date_header (today w)) content) eqn:Ec.
  - destruct (last_heading (splitlines content)) as [d|] eqn:Ed;
      [|exfalso; exact (Hhead eq_refl eq_refl)].
    exists a, volume, d, (content ++ [NL] ++ row).
    destruct (splitlines_append content row) as (extra & He & Es).
    destruct (history_extra (splitlines content) extra He) as (Hx1 & Hx2).
    assert (Erow : splitlines row = [row])
      by exact (splitlines_from_last row [] Hrb Hrne).
    cbn [app]. rewrite Es, Erow.
    repeat split; try assumption.
    + rewrite !history_loop_app. cbn [app]. rewrite Hx1, app_nil_r.
      rewrite history_loop_one. rewrite (Hlisted _ d); [reflexivity|].
      rewrite Hx2. exact Ed.
    + rewrite last_heading_skip by exact Hrh. rewrite Hx2. exact Ed.
  - destruct (iso_date_heading (today w) Hdate) as (Hd1 & Hd2).
    set (dh := date_header (today w)) in *.
    exists a, volume, (today w),
      (content ++ [NL; NL] ++ dh ++ [NL] ++ TABLE_HEADER ++ [NL] ++ row).
    destruct (splitlines_append content
                (NL :: dh ++ [NL] ++ TABLE_HEADER ++ [NL] ++ row))
      as (extra & He & Es).
    destruct (history_extra (splitlines content) extra He) as (Hx1 & Hx2).
    change ([NL; NL] ++ dh ++ [NL] ++ TABLE_HEADER ++ [NL] ++ row)
      with (NL :: NL :: dh ++ [NL] ++ TABLE_HEADER ++ [NL] ++ row).
    rewrite Es.
    assert (El : splitlines (NL :: dh ++ [NL] ++ TABLE_HEADER ++ [NL] ++ row) =
                 [[]; dh; HEADER_ROW; SEPARATOR_ROW; row]).
    { unfold splitlines.
      change (NL :: dh ++ [NL] ++ TABLE_HEADER ++ [NL] ++ row)
        with ([] ++ NL :: dh ++ NL :: HEADER_ROW ++ NL :: SEPARATOR_ROW
                 ++ NL :: row).
      rewrite splitlines_from_line by reflexivity.
      rewrite splitlines_from_line by exact Hd2.
      rewrite splitlines_from_line by reflexivity.
      rewrite splitlines_from_line by reflexivity.
      rewrite (splitlines_from_last row [] Hrb Hrne). reflexivity. }
    rewrite El.
    set (seen := splitlines content ++ extra) in *.
    assert (H1 : last_heading (seen ++ [[]]) = last_heading seen)
      by (apply last_heading_skip; reflexivity).
    assert (H2 : last_heading ((seen ++ [[]]) ++ [dh]) = Some (today w))
      by (rewrite last_heading_snoc, Hd1; reflexivity).
    assert (H3 : last_heading (((seen ++ [[]]) ++ [dh]) ++ [HEADER_ROW])
                 = Some (today w))
      by (rewrite last_heading_skip by reflexivity; exact H2).
    assert (H4 : last_heading ((((seen ++ [[]]) ++ [dh]) ++ [HEADER_ROW])
                                 ++ [SEPARATOR_ROW]) = Some (today w))
      by (rewrite last_heading_skip by reflexivity; exact H3).
    repeat split; try assumption.
    + rewrite history_loop_app. subst seen.
      rewrite history_loop_app. cbn [app]. rewrite Hx1, app_nil_r.
      f_equal.
      rewrite history_loop_cons, (listed_at_skip _ []) by reflexivity.
      rewrite history_loop_cons.
      unfold listed_at at 1. rewrite Hd1. cbn [app].
      rewrite history_loop_cons, (listed_at_skip _ HEADER_ROW) by reflexivity.
      rewrite history_loop_cons, (listed_at_skip _ SEPARATOR_ROW)
        by reflexivity.
      cbn [app]. rewrite history_loop_one. exact (Hlisted _ _ H4).
    + change (seen ++ [[]; dh; HEADER_ROW; SEPARATOR_ROW; row])
        with (seen ++ [[]] ++ [dh] ++ [HEADER_ROW] ++ [SEPARATOR_ROW] ++ [row]).
      rewrite !app_assoc.
      rewrite last_heading_skip by exact Hrh. exact H4.
Qed.

(** ** The weight a record is compared with *)







(** Text appended to the document leaves the registry as it is. *)
Lemma parse_actions_append (content t : str) :
  parse_actions content <> [] ->
  parse_actions (content ++ t) = parse_actions content.
Proof.
  rewrite !parse_actions_section. unfold section_of.
  destruct (find_first (ACTIONS_HEADING ++ [NL]) content)
    as [[before [|c u]]|] eqn:E1; try (intros H; contradiction).
  destruct (find_first NEXT_HEADING u) as [[b rest]|] eqn:E2;
    [|intros H; contradiction].
  intros _.
  pose proof (find_first_split _ _ _ _ E1) as Ec.
  pose proof (find_first_split _ _ _ _ E2) as Eu.
  rewrite Ec in E1 |- *.
  replace ((before ++ (ACTIONS_HEADING ++ [NL]) ++ c :: u) ++ t)
    with (before ++ (ACTIONS_HEADING ++ [NL]) ++ c :: u ++ t)
    by (rewrite <- !app_assoc; reflexivity).
  rewrite (find_first_stable _ _ _ (c :: u ++ t) E1).
  rewrite Eu in E2 |- *.
  replace ((b ++ NEXT_HEADING ++ rest) ++ t)
    with (b ++ NEXT_HEADING ++ rest ++ t)
    by (rewrite <- !app_assoc; reflexivity).
  rewrite (find_first_stable _ _ _ (rest ++ t) E2). reflexivity.
Qed.

(** ** The rows found after a record *)








(* ===================================================================== *)
(** * Further properties of the commands *)
(* ===================================================================== *)

(** ** [action add] beyond the registry's first entry *)

(** A run of [action add] that finds the heading. *)
Lemma action_add_runs (w : world) (content name before rest : str) :
  data_file w = Some content ->
  ~ In name (parse_actions content) ->
  forallb (fun c => negb (c =? BACKSLASH)) name = true ->
  find_first (ACTIONS_HEADING ++ [NL]) content = Some (before, rest) ->
  action_add name w =
  (Done tt,
   {| data_file := Some (before ++ (ACTIONS_HEADING ++ [NL]) ++ BULLET ++
                         name ++ [NL] ++ rest);
      today := today w;
      console := console w ++ [MsgAdded name] |}).
Proof.
  intros Hf Hnew Hbs Hfind.
  destruct w as [f d out]. simpl in Hf. subst f.
  cbv beta iota delta [action_add get_actions bind read_text ret lift
                       data_file].
  destruct (str_in name (parse_actions content)) eqn:Ein.
  - apply str_in_In in Ein. contradiction.
  - rewrite (subn_add_template name content Hbs), Hfind. reflexivity.
Qed.

(** The bullets of a text whose first line is [l]. *)
Lemma bullets_line (l t : str) :
  forallb (fun c => negb (c =? NL)) l = true ->
  bullets (l ++ NL :: t) =
  (if startswith BULLET (strip l) then [skipn 2 (strip l)] else []) ++
  bullets t.
Proof.
  intros Hl. unfold bullets.
  rewrite (split_app_first NL l _ Hl).
  cbn [split]. change (NL =? NL) with true. cbn [hd tl].
  rewrite app_nil_r. apply bullets_cons_line.
Qed.

(** The registry after a bullet line was put right below its heading:
    the bullet of that line, if it is one, and the entries of before.
    The text below the heading must not begin with the next heading, and
    the registry must have an end. *)
Lemma parse_actions_insert (content name before rest : str) :
  forallb (fun c => negb (c =? NL)) name = true ->
  find_first (ACTIONS_HEADING ++ [NL]) content = Some (before, rest) ->
  startswith (lit "##") rest = false ->
  startswith NEXT_HEADING rest = false ->
  contains NEXT_HEADING rest = true ->
  parse_actions (before ++ (ACTIONS_HEADING ++ [NL]) ++ BULLET ++ name ++
                 [NL] ++ rest) =
  (if startswith BULLET (strip (BULLET ++ name))
   then [skipn 2 (strip (BULLET ++ name))] else []) ++
  parse_actions content.
Proof.
  intros Hnl Hfind H1 H2 H3.
  rewrite !parse_actions_section. unfold section_of.
  rewrite Hfind.
  pose proof (find_first_split _ _ _ _ Hfind) as Ec. subst content.
  rewrite (find_first_stable _ _ _ (BULLET ++ name ++ [NL] ++ rest) Hfind).
  change (BULLET ++ name ++ [NL] ++ rest)
    with (HYPHEN :: (SPACE :: name) ++ NL :: rest).
  cbv beta iota.
  rewrite find_first_skip by (simpl; exact Hnl).
  destruct rest as [|c u]; [discriminate H3|].
  assert (E1 : find_first NEXT_HEADING (NL :: c :: u) =
               match find_first NEXT_HEADING (c :: u) with
               | Some (b, r) => Some (NL :: b, r)
               | None => None
               end).
  { change (find_first NEXT_HEADING (NL :: c :: u))
      with (if startswith NEXT_HEADING (NL :: c :: u)
            then Some ([], skipn (length NEXT_HEADING) (NL :: c :: u))
            else match find_first NEXT_HEADING (c :: u) with
                 | Some (a, b) => Some (NL :: a, b)
                 | None => None
                 end).
    replace (startswith NEXT_HEADING (NL :: c :: u))
      with (startswith (lit "##") (c :: u)) by reflexivity.
    rewrite H1. reflexivity. }
  assert (E2 : find_first NEXT_HEADING (c :: u) =
               match find_first NEXT_HEADING u with
               | Some (b, r) => Some (c :: b, r)
               | None => None
               end).
  { change (find_first NEXT_HEADING (c :: u))
      with (if startswith NEXT_HEADING (c :: u)
            then Some ([], skipn (length NEXT_HEADING) (c :: u))
            else match find_first NEXT_HEADING u with
                 | Some (a, b) => Some (c :: a, b)
                 | None => None
                 end).
    rewrite H2. reflexivity. }
  rewrite E1, E2.
  destruct (find_first NEXT_HEADING u) as [[b r]|] eqn:Eu.
  - rewrite !bullets_strip.
    change (HYPHEN :: (SPACE :: name) ++ NL :: c :: b)
      with ((BULLET ++ name) ++ NL :: c :: b).
    apply bullets_line.
    rewrite forallb_app. apply andb_true_iff. split; [reflexivity|exact Hnl].
  - exfalso.
    assert (En : find_first NEXT_HEADING (c :: u) = None)
      by (rewrite E2; reflexivity).
    apply find_first_none in En. rewrite En in H3. discriminate.
Qed.





(** White space at the end does not survive [strip]. *)
Lemma strip_trailing (s t : str) :
  forallb isspace t = true -> strip (s ++ t) = strip s.
Proof.
  induction t as [|c t IH] using rev_ind; intros Ht.
  - rewrite app_nil_r. reflexivity.
  - rewrite forallb_app in Ht. apply andb_true_iff in Ht.
    destruct Ht as (Ht & Hc). cbn [forallb] in Hc.
    rewrite andb_true_r in Hc.
    rewrite app_assoc, (strip_snoc_space _ c Hc). exact (IH Ht).
Qed.

(** [strip] keeps a first character that is not white space. *)
Lemma strip_first_char (c : char) (s : str) :
  isspace c = false -> exists t, strip (c :: s) = c :: t.
Proof.
  intros Hc. unfold strip. rewrite (lstrip_fixed c s Hc).
  unfold rstrip. cbn [rev].
  rewrite (lstrip_app_nonspace (rev s) [] c Hc).
  rewrite rev_app_distr. cbn [rev app]. eexists. reflexivity.
Qed.


(** X2.  A blank name.  A name of white space only (the empty name is
    one) is never an entry of the registry, so [action add] does not
    reject it: it writes the bullet line and reports success, and the
    registry read back is the one of before. *)
Theorem action_add_blank_name (w : world) (content name before rest : str) :
  data_file w = Some content ->
  forallb isspace name = true ->
  forallb (fun c => negb (c =? NL)) name = true ->
  find_first (ACTIONS_HEADING ++ [NL]) content = Some (before, rest) ->
  startswith (lit "##") rest = false ->
  startswith NEXT_HEADING rest = false ->
  contains NEXT_HEADING rest = true ->
  action_add name w =
  (Done tt,
   {| data_file := Some (before ++ (ACTIONS_HEADING ++ [NL]) ++ BULLET ++
                         name ++ [NL] ++ rest);
      today := today w;
      console := console w ++ [MsgAdded name] |}) /\
  get_actions (snd (action_add name w)) =
  (Done (parse_actions content), snd (action_add name w)).
Proof.
  intros Hf Hblank Hnl Hfind H1 H2 H3.
  assert (Hnew : ~ In name (parse_actions content)).
  { intros Hin.
    pose proof (parse_actions_nonempty content name Hin) as Hne.
    pose proof (parse_actions_end content name Hin) as Hend.
    destruct name as [|c name]; [contradiction|].
    assert (Hl : In (last (c :: name) SPACE) (c :: name))
      by (apply last_in; discriminate).
    rewrite forallb_forall in Hblank. rewrite (Hblank _ Hl) in Hend.
    discriminate. }
  assert (Hbs : forallb (fun c => negb (c =? BACKSLASH)) name = true).
  { apply forallb_forall. intros c Hc. rewrite forallb_forall in Hblank.
    specialize (Hblank c Hc).
    destruct (c =? BACKSLASH) eqn:E; [|reflexivity].
    apply N.eqb_eq in E. subst c. discriminate Hblank. }
  pose proof (action_add_runs w content name before rest Hf Hnew Hbs Hfind)
    as Hrun.
  split; [exact Hrun|].
  rewrite Hrun, get_actions_total. cbn [snd data_file].
  rewrite (parse_actions_insert content name before rest Hnl Hfind H1 H2 H3).
  change (BULLET ++ name) with ([HYPHEN] ++ SPACE :: name).
  rewrite strip_trailing by (cbn [forallb]; rewrite Hblank; reflexivity).
  reflexivity.
Qed.


(** X4.  The history is not touched.  A name without line boundary adds
    one line to the document, which is neither a date heading nor a row:
    the history of the new document is the history of the old one. *)
Theorem action_add_keeps_history (w : world) (content name before rest : str) :
  data_file w = Some content ->
  ~ In name (parse_actions content) ->
  forallb (fun c => negb (c =? BACKSLASH)) name = true ->
  forallb no_break name = true ->
  find_first (ACTIONS_HEADING ++ [NL]) content = Some (before, rest) ->
  exists new_content,
    data_file (snd (action_add name w)) = Some new_content /\
    history_rows new_content = history_rows content.
Proof.
  intros Hf Hnew Hbs Hnb Hfind.
  rewrite (action_add_runs w content name before rest Hf Hnew Hbs Hfind).
  eexists. split; [reflexivity|].
  pose proof (find_first_split _ _ _ _ Hfind) as Ec. subst content.
  unfold history_rows, splitlines.
  set (line := BULLET ++ name).
  assert (Hline : forallb no_break line = true).
  { subst line. rewrite forallb_app. apply andb_true_iff.
    split; [reflexivity | exact Hnb]. }
  replace (before ++ (ACTIONS_HEADING ++ [NL]) ++ BULLET ++ name ++ [NL] ++ rest)
    with ((before ++ ACTIONS_HEADING) ++ NL :: line ++ NL :: rest)
    by (subst line; rewrite <- !app_assoc; reflexivity).
  replace (before ++ (ACTIONS_HEADING ++ [NL]) ++ rest)
    with ((before ++ ACTIONS_HEADING) ++ NL :: rest)
    by (rewrite <- !app_assoc; reflexivity).
  rewrite (splitlines_from_break (before ++ ACTIONS_HEADING)
             (line ++ NL :: rest) []).
  rewrite (splitlines_from_break (before ++ ACTIONS_HEADING) rest []).
  rewrite (splitlines_from_line line rest [] Hline). cbn [rev app].
  set (l1 := splitlines_from [] ((before ++ ACTIONS_HEADING) ++ [NL])).
  set (l2 := splitlines_from [] rest).
  change None with (last_heading []).
  rewrite !history_loop_app, history_loop_cons. cbn [app].
  destruct (strip_first_char HYPHEN (SPACE :: name) eq_refl) as (t & Et).
  change (HYPHEN :: SPACE :: name) with line in Et.
  assert (Hh : heading_date line = None)
    by (unfold heading_date; rewrite Et; reflexivity).
  assert (Hr : row_cells line = None)
    by (unfold row_cells; rewrite Et; reflexivity).
  rewrite (listed_at_skip l1 line Hr), (last_heading_skip l1 line Hh).
  reflexivity.
Qed.

(** ** What the commands never do *)

(** X5.  No heading.  On a document without the registry heading line,
    [action add] of a name without backslash finds nothing to extend:
    it prints the error, exits with status 1 and leaves the file as it
    was. *)
Theorem action_add_heading_missing (w : world) (content name : str) :
  data_file w = Some content ->
  contains (ACTIONS_HEADING ++ [NL]) content = false ->
  forallb (fun c => negb (c =? BACKSLASH)) name = true ->
  action_add name w =
  (Raised (Exit 1),
   {| data_file := Some content; today := today w;
      console := console w ++ [MsgHeadingNotFound] |}).
Proof.
  intros Hf Hnone Hbs. apply find_first_none in Hnone.
  assert (Ea : parse_actions content = []).
  { rewrite parse_actions_section. unfold section_of. rewrite Hnone.
    reflexivity. }
  destruct w as [f d out]. simpl in Hf. subst f.
  cbv beta iota delta [action_add get_actions bind read_text ret lift
                       data_file].
  rewrite Ea. cbn [str_in existsb].
  rewrite (subn_add_template name content Hbs), Hnone. reflexivity.
Qed.



(** The callback leaves a world with a file. *)
Lemma main_leaves_file (w : world) :
  initialize_storage w =
  (Done tt, snd (initialize_storage w)) /\
  data_file (snd (initialize_storage w)) =
  Some (match data_file w with Some c => c | None => TEMPLATE end).
Proof. destruct w as [[c|] d out]; split; reflexivity. Qed.

(** A command behind the callback runs in the world the callback left. *)
Lemma cli_after_main {A : Type} (command : M A) (w : world) :
  cli command w = command (snd (initialize_storage w)).
Proof. unfold cli, main, bind. destruct w as [[c|] d out]; reflexivity. Qed.

(** With a file, [action add] and [record] leave a file and do not
    stop on a missing one. *)
Lemma action_add_with_file (name content d : str) (out : list message) :
  let r := action_add name {| data_file := Some content; today := d;
                              console := out |} in
  fst r <> Raised FileNotFoundError /\ data_file (snd r) <> None.
Proof.
  cbv beta iota zeta delta [action_add get_actions bind read_text ret lift
                            data_file].
  destruct (str_in name (parse_actions content)); [split; discriminate|].
  destruct (re_subn_once ACTIONS_HEADING_RE (add_template name) content)
    as [[new_content [|count]]|]; cbn; split; discriminate.
Qed.

Lemma record_with_file (q : str) (reps sets : Z) (kg : pyfloat)
      (content d : str) (out : list message) :
  let r := record q reps kg sets {| data_file := Some content; today := d;
                                    console := out |} in
  fst r <> Raised FileNotFoundError /\ data_file (snd r) <> None.
Proof.
  unfold record, record_matched; run.
  destruct (find_action q (parse_actions content)) as [[|c a]|]; simpl;
    try (split; discriminate).
  destruct (int_mul_float (sets * reps) kg) as [volume|]; simpl;
    [|split; discriminate].
  destruct (max_weight_before (c :: a) content) as [before|]; simpl;
    [|split; discriminate].
  destruct (contains (date_header d) content); simpl;
    destruct (float_gt kg before); simpl; split; discriminate.
Qed.

(** X8.  The commands find their file.  Run behind the callback, on any
    world, no command stops on a missing file, and each of them leaves a
    file behind. *)
Theorem cli_finds_file (w : world) (name q : str) (reps sets : Z)
        (kg : pyfloat) :
  let ok (r : outcome unit * world) :=
      fst r <> Raised FileNotFoundError /\ data_file (snd r) <> None in
  ok (cli action_show w) /\ ok (cli (action_add name) w) /\
  ok (cli (record q reps kg sets) w) /\ ok (cli history w).
Proof.
  intros ok. subst ok. cbv beta.
  destruct (main_leaves_file w) as (_ & Ef).
  set (content := match data_file w with Some c => c | None => TEMPLATE end)
    in Ef.
  rewrite !cli_after_main.
  destruct (snd (initialize_storage w)) as [f d out].
  simpl in Ef. subst f.
  split; [|split; [|split]].
  - unfold action_show. run.
    destruct (parse_actions content); split; discriminate.
  - exact (action_add_with_file name content d out).
  - exact (record_with_file q reps sets kg content d out).
  - unfold history. run. destruct (history_rows content); split; discriminate.
Qed.


(** ** What [record] keeps *)

(** X10.  The registry is not touched.  After a [record] that returns,
    the registry reads back as before. *)
Theorem record_keeps_actions (q : str) (reps sets : Z) (kg : pyfloat)
        (w : world) (content : str) :
  data_file w = Some content ->
  fst (record q reps kg sets w) = Done tt ->
  get_actions (snd (record q reps kg sets w)) =
  (Done (parse_actions content), snd (record q reps kg sets w)).
Proof.
  intros Hf Hdone.
  destruct (record_done q reps sets kg w content Hf Hdone) as (a & Ea & Er).
  rewrite Er in Hdone |- *.
  destruct (record_matched_done a reps sets kg w content Hf Hdone)
    as (volume & before & _ & _ & Em).
  rewrite Em, get_actions_total. cbn [snd data_file].
  rewrite parse_actions_append; [reflexivity|].
  intros Hnil. rewrite Hnil in Ea. discriminate Ea.
Qed.

Lemma contains_app_l (needle a b : str) :
  contains needle a = true -> contains needle (a ++ b) = true.
Proof.
  intros H. apply contains_iff in H. destruct H as (x & y & ->).
  apply contains_iff. exists x, (y ++ b). rewrite <- !app_assoc. reflexivity.
Qed.

(** X11.  One heading a day.  After a [record] that returns, the text of
    today's heading occurs in the document; so every further [record] of
    that day that returns adds one line break and its row, and no second
    heading. *)
Theorem record_same_day (q : str) (reps sets : Z) (kg : pyfloat)
        (w : world) (content : str) :
  data_file w = Some content ->
  fst (record q reps kg sets w) = Done tt ->
  let w1 := snd (record q reps kg sets w) in
  exists content1,
    data_file w1 = Some content1 /\ today w1 = today w /\
    contains (date_header (today w)) content1 = true /\
    forall q2 reps2 sets2 kg2,
      fst (record q2 reps2 kg2 sets2 w1) = Done tt ->
      exists a2 volume2,
        find_action q2 (parse_actions content) = Some a2 /\
        int_mul_float (sets2 * reps2) kg2 = Some volume2 /\
        data_file (snd (record q2 reps2 kg2 sets2 w1)) =
        Some (content1 ++ NL :: new_record_row a2 sets2 reps2 kg2 volume2).
Proof.
  intros Hf Hdone w1.
  destruct (record_done q reps sets kg w content Hf Hdone) as (a & Ea & Er).
  subst w1. rewrite Er in Hdone |- *.
  destruct (record_matched_done a reps sets kg w content Hf Hdone)
    as (volume & before & _ & _ & Em).
  rewrite Em. cbn [snd data_file today].
  set (content1 := content ++ appended_text (today w) content
                                (new_record_row a sets reps kg volume)).
  set (w1 := {| data_file := Some content1; today := today w;
                console := _ |}).
  assert (Hc : contains (date_header (today w)) content1 = true).
  { subst content1. unfold appended_text.
    destruct (contains (date_header (today w)) content) eqn:E.
    - apply contains_app_l. exact E.
    - apply contains_iff.
      exists (content ++ [NL; NL]),
             ([NL] ++ TABLE_HEADER ++ [NL] ++
              new_record_row a sets reps kg volume).
      rewrite <- !app_assoc. reflexivity. }
  exists content1. split; [reflexivity|]. split; [reflexivity|].
  split; [exact Hc|].
  intros q2 reps2 sets2 kg2 Hdone2.
  destruct (record_done q2 reps2 sets2 kg2 w1 content1 eq_refl Hdone2)
    as (a2 & Ea2 & Er2).
  rewrite Er2 in Hdone2 |- *.
  destruct (record_matched_done a2 reps2 sets2 kg2 w1 content1 eq_refl Hdone2)
    as (volume2 & before2 & Ev2 & _ & Em2).
  exists a2, volume2.
  split.
  { subst content1. rewrite parse_actions_append in Ea2; [exact Ea2|].
    intros Hnil. rewrite Hnil in Ea. discriminate Ea. }
  split; [exact Ev2|].
  rewrite Em2. cbn [snd data_file]. subst w1. cbn [today].
  unfold appended_text at 1. rewrite Hc. reflexivity.
Qed.

Lemma contains_nil (hay : str) : contains [] hay = true.
Proof. destruct hay; reflexivity. Qed.

(** X12.  The empty query.  When the lower-cased query is the empty
    string, as for the empty query itself, every entry contains it:
    [record] goes on with the first entry of the registry. *)
Theorem record_empty_query (q : str) (reps sets : Z) (kg : pyfloat)
        (w : world) (content a : str) (others : list str) :
  data_file w = Some content ->
  parse_actions content = a :: others ->
  str_lower q = [] ->
  record q reps kg sets w = record_matched a reps kg sets w.
Proof.
  intros Hf Ha Hq.
  assert (Hne : a <> []).
  { apply (parse_actions_nonempty content). rewrite Ha. left. reflexivity. }
  destruct w as [f d out]. simpl in Hf. subst f.
  unfold record. run. rewrite Ha. cbn [find_action].
  rewrite Hq, contains_nil.
  destruct a as [|c a]; [contradiction|]. reflexivity.
Qed.

(** ** What the readers return *)

Lemma split_pieces (sep : char) (s l : str) :
  In l (split sep s) -> forallb (fun c => negb (c =? sep)) l = true.
Proof.
  revert l. induction s as [|c s IH]; intros l; cbn [split].
  - intros [<-|[]]. reflexivity.
  - destruct (c =? sep) eqn:E.
    + intros [<-|H]; [reflexivity | exact (IH l H)].
    + destruct (split sep s) as [|x xs] eqn:Es.
      * intros [<-|[]]. cbn [forallb]. rewrite E. reflexivity.
      * intros [<-|H].
        -- cbn [forallb]. rewrite E. cbn [negb andb].
           apply IH. left. reflexivity.
        -- apply IH. right. exact H.
Qed.

Lemma forallb_lstrip (p : char -> bool) (s : str) :
  forallb p s = true -> forallb p (lstrip s) = true.
Proof.
  induction s as [|c s IH]; [reflexivity|].
  intros H. cbn [lstrip]. destruct (isspace c); [|exact H].
  cbn [forallb] in H. apply andb_true_iff in H. exact (IH (proj2 H)).
Qed.

Lemma forallb_rev_true (p : char -> bool) (s : str) :
  forallb p s = true -> forallb p (rev s) = true.
Proof.
  rewrite !forallb_forall. intros H x Hx. apply H, in_rev. exact Hx.
Qed.

Lemma forallb_strip (p : char -> bool) (s : str) :
  forallb p s = true -> forallb p (strip s) = true.
Proof.
  intros H. unfold strip, rstrip.
  apply forallb_rev_true, forallb_lstrip, forallb_rev_true, forallb_lstrip.
  exact H.
Qed.

Lemma forallb_skipn_true (p : char -> bool) (n : nat) (s : str) :
  forallb p s = true -> forallb p (skipn n s) = true.
Proof.
  revert s. induction n as [|n IH]; intros s H; [exact H|].
  destruct s as [|c s]; [reflexivity|].
  cbn [forallb] in H. apply andb_true_iff in H.
  cbn [skipn]. exact (IH s (proj2 H)).
Qed.

(** X13.  The entries of the registry.  Every action that [get_actions]
    returns has at least one character, holds no line feed and does not
    end with white space. *)
Theorem get_actions_wellformed (w : world) (actions : list str) (w' : world) :
  get_actions w = (Done actions, w') ->
  w' = w /\
  forall a, In a actions ->
            a <> [] /\ ~ In NL a /\ isspace (last a SPACE) = false.
Proof.
  rewrite get_actions_total.
  destruct (data_file w) as [content|]; [|discriminate].
  intros H. inversion H. subst actions w'. split; [reflexivity|].
  intros a Ha.
  split; [exact (parse_actions_nonempty content a Ha)|].
  split; [|exact (parse_actions_end content a Ha)].
  rewrite parse_actions_section in Ha.
  destruct (section_of content) as [[[b text] r]|]; [|contradiction].
  unfold bullets in Ha. apply in_map_iff in Ha.
  destruct Ha as (line & <- & Hl). apply filter_In in Hl.
  destruct Hl as (Hl & _). apply split_pieces in Hl.
  intros Hin.
  pose proof (forallb_skipn_true _ 2 _ (forallb_strip _ _ Hl)) as Hs.
  rewrite forallb_forall in Hs. specialize (Hs NL Hin). discriminate Hs.
Qed.

(** X14.  A registry without end.  When the registry heading line is
    missing, or is the last line, or no line starting with [##] follows
    the first character below it, the registry reads back empty whatever
    bullets the document holds: [action show] reports an empty list and
    [record] refuses every query. *)
Theorem get_actions_open_registry (w : world) (content : str) :
  data_file w = Some content ->
  match find_first (ACTIONS_HEADING ++ [NL]) content with
  | Some (_, rest) => contains NEXT_HEADING (tl rest) = false
  | None => True
  end ->
  get_actions w = (Done [], w) /\
  action_show w =
    (Done tt, {| data_file := Some content; today := today w;
                 console := console w ++ [MsgNoActions] |}) /\
  forall q reps kg sets,
    record q reps kg sets w =
    (Raised (Exit 1),
     {| data_file := Some content; today := today w;
        console := console w ++ [MsgActionNotFound q; MsgAddItFirst] |}).
Proof.
  intros Hf Hopen.
  assert (Ea : parse_actions content = []).
  { rewrite parse_actions_section. unfold section_of.
    destruct (find_first (ACTIONS_HEADING ++ [NL]) content)
      as [[b [|c u]]|]; try reflexivity.
    cbn [tl] in Hopen. apply find_first_none in Hopen. rewrite Hopen.
    reflexivity. }
  destruct w as [f d out]. simpl in Hf. subst f.
  split; [|split].
  - rewrite get_actions_total. cbn [data_file]. rewrite Ea. reflexivity.
  - unfold action_show. run. rewrite Ea. reflexivity.
  - intros q reps kg sets. unfold record. run. rewrite Ea. cbn.
    rewrite <- app_assoc. reflexivity.
Qed.

(** ** What [history] lists *)

(** What every row of the history table looks like: a date of the form
    [dddd-dd-dd], a name with at least one character that does not hold
    the word of the header, and cells without column delimiter and
    without white space around them. *)
Definition tidy_cell (x : str) : Prop := pipe_free x = true /\ strip x = x.

Definition well_formed (e : entry) : Prop :=
  iso_date (e_date e) = true /\
  e_action e <> [] /\ contains HEADER_WORD (e_action e) = false /\
  tidy_cell (e_action e) /\ tidy_cell (e_sets e) /\ tidy_cell (e_reps e) /\
  tidy_cell (e_kg e) /\ tidy_cell (e_volume e).

Ltac next_char_eq s x H :=
  destruct s as [|x s]; simpl; [discriminate|];
  match goal with
  | |- (if ?b then _ else _) = _ -> _ => destruct b eqn:H; [|discriminate]
  end.

(** The date a heading captures has the form [dddd-dd-dd]. *)
Lemma date_heading_iso (s d rest : str) :
  re_match DATE_HEADING_RE s = Some (d, rest) -> iso_date d = true.
Proof.
  unfold re_match, DATE_HEADING_RE. simpl.
  next_char s h1. next_char s h2. next_char s h3.
  next_char_eq s x1 E1. next_char_eq s x2 E2. next_char_eq s x3 E3.
  next_char_eq s x4 E4. next_char_eq s x5 E5. next_char_eq s x6 E6.
  next_char_eq s x7 E7. next_char_eq s x8 E8. next_char_eq s x9 E9.
  next_char_eq s x10 E10.
  change (x1 :: x2 :: x3 :: x4 :: x5 :: x6 :: x7 :: x8 :: x9 :: x10 :: s)
    with ([x1; x2; x3; x4; x5; x6; x7; x8; x9; x10] ++ s).
  rewrite capture_prefix. intros H. inversion H. subst d rest.
  unfold chr_is in E5, E8. apply N.eqb_eq in E5, E8. subst x5 x8.
  cbn [iso_date]. rewrite E1, E2, E3, E4, E6, E7, E9, E10. reflexivity.
Qed.

Lemma strip_strip (x : str) : strip (strip x) = strip x.
Proof.
  destruct (strip x) as [|c t] eqn:E; [reflexivity|].
  apply strip_id.
  - exact (strip_head x t c E).
  - assert (Hne : c :: t <> []) by discriminate.
    rewrite (app_removelast_last SPACE Hne) in E.
    exact (strip_last x _ _ E).
Qed.

Lemma tidy_cell_of_split (line c : str) :
  In c (map strip (split PIPE line)) -> tidy_cell c.
Proof.
  intros H. apply in_map_iff in H. destruct H as (x & <- & Hx).
  split; [|apply strip_strip].
  apply forallb_strip. exact (split_pieces PIPE line x Hx).
Qed.

Lemma history_step_wellformed (cur : option str) (line : str) :
  (forall d, cur = Some d -> iso_date d = true) ->
  (forall d, fst (history_step cur line) = Some d -> iso_date d = true) /\
  (forall e, In e (snd (history_step cur line)) -> well_formed e).
Proof.
  intros Hcur. unfold history_step.
  destruct (re_match DATE_HEADING_RE (strip line)) as [[date rest]|] eqn:E.
  - cbn [fst snd]. split; [|intros e []].
    intros d H. inversion H. subst d. exact (date_heading_iso _ _ _ E).
  - destruct (truthy cur && startswith [PIPE] (strip line)
              && negb (contains SEPARATOR_MARK line));
      [|split; [exact Hcur | intros e []]].
    destruct cur as [d|]; [|split; [exact Hcur | intros e []]].
    destruct (map strip (split PIPE (strip line)))
      as [|x0 [|action [|sets [|reps [|kg [|volume [|x6 [|x7 more]]]]]]]]
      eqn:Ecells;
      try (split; [exact Hcur | intros e []]).
    destruct (truthy (Some action) && negb (contains HEADER_WORD action))
      eqn:Eok; [|split; [exact Hcur | intros e []]].
    cbn [fst snd]. split; [exact Hcur|].
    intros e [<-|[]].
    apply andb_true_iff in Eok. destruct Eok as (Ene & Ehw).
    apply negb_true_iff in Ehw.
    assert (Hcell : forall c, In c [x0; action; sets; reps; kg; volume; x6] ->
                              tidy_cell c).
    { intros c Hc. apply (tidy_cell_of_split (strip line)).
      rewrite Ecells. exact Hc. }
    unfold well_formed. cbn [e_date e_action e_sets e_reps e_kg e_volume].
    split; [exact (Hcur d eq_refl)|].
    split; [intros ->; discriminate Ene|].
    split; [exact Ehw|].
    repeat split; apply Hcell; cbn [In]; tauto.
Qed.

Lemma history_loop_wellformed (lines : list str) (cur : option str) :
  (forall d, cur = Some d -> iso_date d = true) ->
  forall e, In e (history_loop cur lines) -> well_formed e.
Proof.
  revert cur. induction lines as [|line lines IH]; intros cur Hcur e;
    [intros []|].
  cbn [history_loop].
  destruct (history_step_wellformed cur line Hcur) as (Hd & Hrows).
  destruct (history_step cur line) as [d rows]. cbn [fst snd] in Hd, Hrows.
  intros H. apply in_app_or in H. destruct H as [H|H].
  - exact (Hrows e H).
  - exact (IH d Hd e H).
Qed.

(** X15.  The rows of the history.  Whatever the document holds, every
    row that [history] lists has a date of the form [dddd-dd-dd], an
    action of at least one character without the word [Action], and five
    cells without column delimiter and without white space around
    them. *)
Theorem history_rows_wellformed (content : str) (e : entry) :
  In e (history_rows content) -> well_formed e.
Proof.
  apply history_loop_wellformed. intros d H. discriminate H.
Qed.

(** X16.  Above the first date.  Lines above the first date heading are
    never listed: a text none of whose lines is a date heading has an
    empty history, and put above a document it leaves the history of the
    document as it is. *)
Theorem history_skips_preamble (top below : str) :
  (forall l, In l (splitlines top) -> heading_date l = None) ->
  history_rows top = [] /\
  history_rows (top ++ NL :: below) = history_rows below.
Proof.
  intros Htop.
  assert (Hloop : forall lines,
             (forall l, In l lines -> heading_date l = None) ->
             forall rest, history_loop None (lines ++ rest) =
                          history_loop None rest).
  { induction lines as [|l lines IH]; intros Hl rest; [reflexivity|].
    cbn [app history_loop]. unfold history_step.
    pose proof (Hl l (or_introl eq_refl)) as Hh. unfold heading_date in Hh.
    destruct (re_match DATE_HEADING_RE (strip l)) as [[date r]|];
      [discriminate Hh|].
    cbn [truthy andb app]. apply IH.
    intros x Hx. apply Hl. right. exact Hx. }
  split.
  - unfold history_rows. rewrite <- (app_nil_r (splitlines top)).
    exact (Hloop _ Htop []).
  - unfold history_rows.
    destruct (splitlines_append top below) as (extra & Hextra & ->).
    apply Hloop. intros l Hl. apply in_app_or in Hl.
    destruct Hl as [Hl|Hl]; [exact (Htop l Hl)|].
    destruct Hextra as [-> | ->]; [destruct Hl|].
    destruct Hl as [<-|[]]. reflexivity.
Qed.

(** ** One exercise and the others *)






End Properties.

(* ===================================================================== *)
(** * The reference runtime obeys the laws *)
(* ===================================================================== *)

Lemma fraction_digits (f : N) :
  f < 1000 -> forallb is_ascii_digit (Milli.fraction f) = true.
Proof.
  intros Hf.
  assert (H1 : f / 100 < 10)
    by (apply N.Div0.div_lt_upper_bound; exact Hf).
  assert (H2 : (f / 10) mod 10 < 10) by (apply N.mod_lt; discriminate).
  assert (H3 : f mod 10 < 10) by (apply N.mod_lt; discriminate).
  assert (D : forall d, d < 10 -> is_ascii_digit (48 + d) = true).
  { intros d Hd. unfold is_ascii_digit.
    apply andb_true_iff. split; apply N.leb_le; lia. }
  unfold Milli.fraction.
  destruct (f mod 100 =? 0); [|destruct (f mod 10 =? 0)];
    cbn [forallb]; rewrite ?(D _ H1), ?(D _ H2), ?(D _ H3); reflexivity.
Qed.

Lemma milli_to_str_cell (x : Z) :
  Milli.to_str x <> [] /\ forallb plain (Milli.to_str x) = true /\
  contains (lit "---") (Milli.to_str x) = false.
Proof.
  unfold Milli.to_str.
  set (n := Z.abs_N x / 1000).
  assert (Hf : forallb is_ascii_digit (Milli.fraction (Z.abs_N x mod 1000))
               = true)
    by (apply fraction_digits, N.mod_lt; discriminate).
  set (f := Milli.fraction (Z.abs_N x mod 1000)) in *.
  pose proof (N_str_digits n) as Hn.
  assert (Hp : forall t, forallb is_ascii_digit t = true ->
                         forallb plain t = true)
    by (intros t; apply forallb_impl, ascii_digit_plain).
  split; [|split].
  - destruct (x <? 0)%Z; [discriminate|].
    cbn [app]. pose proof (N_str_nonempty n).
    destruct (N_str n); [contradiction | discriminate].
  - apply forallb_app_true; [destruct (x <? 0)%Z; reflexivity|].
    apply forallb_app_true; [exact (Hp _ Hn)|].
    cbn [app forallb]. rewrite (Hp _ Hf). reflexivity.
  - rewrite app_assoc. cbn [app].
    rewrite contains_mark_cut by reflexivity.
    rewrite (contains_mark_digits f Hf), orb_false_r.
    destruct (x <? 0)%Z.
    + cbn [app contains]. rewrite (startswith_mark_digits HYPHEN _ Hn).
      apply contains_mark_digits, Hn.
    + apply contains_mark_digits, Hn.
Qed.

#[export] Instance milli_laws : PyRuntimeLaws Milli.runtime.
Proof.
  constructor.
  - intros x. apply Z.ltb_irrefl.
  - intros x y z. cbn [float_gt Milli.runtime].
    rewrite !Z.ltb_lt. lia.
  - intros x y z. cbn [float_gt Milli.runtime].
    rewrite Z.ltb_lt, !Z.ltb_ge. lia.
  - exact milli_to_str_cell.
Qed.

(* ===================================================================== *)
(** * The theorems at work on sample documents *)
(* ===================================================================== *)

#[local] Existing Instance Milli.runtime.

Lemma action_add_duplicate_witness :
  data_file Sample.fresh = Some TEMPLATE /\
  In Sample.squat (parse_actions TEMPLATE) /\
  action_add Sample.squat Sample.fresh =
  (Raised (Exit 1),
   {| data_file := Some TEMPLATE; today := today Sample.fresh;
      console := [MsgAlreadyExists Sample.squat] |}).
Proof.
  assert (H1 : data_file Sample.fresh = Some TEMPLATE) by reflexivity.
  assert (H2 : In Sample.squat (parse_actions TEMPLATE))
    by (vm_compute; left; reflexivity).
  split; [exact H1 | split; [exact H2|]].
  exact (proj1 (action_add_duplicate Sample.fresh TEMPLATE Sample.squat H1 H2)).
Defined.


Lemma record_not_found_unchanged_witness :
  data_file Sample.fresh = Some TEMPLATE /\
  (forall a, In a (parse_actions TEMPLATE) ->
             contains (str_lower (lit "curl")) (str_lower a) = false) /\
  record (lit "curl") 8 (Sample.kg 20000) 3 Sample.fresh =
  (Raised (Exit 1),
   {| data_file := Some TEMPLATE; today := today Sample.fresh;
      console := [MsgActionNotFound (lit "curl"); MsgAddItFirst] |}).
Proof.
  assert (H1 : data_file Sample.fresh = Some TEMPLATE) by reflexivity.
  assert (H2 : forall a, In a (parse_actions TEMPLATE) ->
             contains (str_lower (lit "curl")) (str_lower a) = false).
  { intros a Ha. vm_compute in Ha.
    destruct Ha as [<-|[<-|[<-|[]]]]; vm_compute; reflexivity. }
  split; [exact H1 | split; [exact H2|]].
  exact (proj1 (record_not_found_unchanged Sample.fresh TEMPLATE (lit "curl")
                  8 3 (Sample.kg 20000) H1 H2)).
Defined.

Lemma record_appends_at_end_witness :
  data_file Sample.fresh = Some TEMPLATE /\
  fst (record (lit "Squat") 5 (Sample.kg 100000) 3 Sample.fresh) = Done tt /\
  data_file Sample.after_first =
  Some (TEMPLATE ++ [NL; NL] ++ lit "## 2025-01-01" ++ [NL] ++ TABLE_HEADER
        ++ [NL] ++ Sample.first_row).
Proof.
  assert (H1 : data_file Sample.fresh = Some TEMPLATE) by reflexivity.
  assert (H2 : fst (record (lit "Squat") 5 (Sample.kg 100000) 3 Sample.fresh)
               = Done tt) by (vm_compute; reflexivity).
  split; [exact H1 | split; [exact H2|]].
  destruct (record_appends_at_end (lit "Squat") 5 3 (Sample.kg 100000)
              Sample.fresh TEMPLATE H1 H2) as (a & volume & Ha & Hv & Hd).
  vm_compute in Ha. inversion Ha. subst a.
  vm_compute in Hv. inversion Hv. subst volume.
  unfold Sample.after_first. rewrite Hd. vm_compute. reflexivity.
Defined.

(** C7, as the claim words it, fails on a second record of the same day:
    today's heading occurs in the file, the new row becomes the line right
    after the last line of the file, and no blank line comes before it. *)
Lemma record_same_day_no_blank_line :
  exists content,
    data_file Sample.after_first = Some content /\
    contains (date_header (today Sample.after_first)) content = true /\
    let w' := snd (record (lit "Squat") 5 (Sample.kg 80000) 1 Sample.after_first) in
    exists new_content,
      data_file w' = Some new_content /\
      new_content = content ++ [NL] ++ Sample.second_row /\
      splitlines new_content = splitlines content ++ [Sample.second_row] /\
      splitlines new_content <> splitlines content ++ [[]; Sample.second_row] /\
      new_content <> content ++ [NL; NL] ++ Sample.second_row.
Proof.
  eexists. split; [vm_compute; reflexivity|].
  split; [vm_compute; reflexivity|].
  eexists. split; [vm_compute; reflexivity|].
  split; [vm_compute; reflexivity|].
  split; [vm_compute; reflexivity|].
  split; vm_compute; discriminate.
Qed.

Lemma history_lists_rows_in_order_witness :
  data_file Sample.after_first =
    Some (TEMPLATE ++ [NL; NL] ++ Sample.day ++ [NL] ++ TABLE_HEADER ++ [NL]
          ++ Sample.first_row) /\
  history_rows (TEMPLATE ++ [NL; NL] ++ Sample.day ++ [NL] ++ TABLE_HEADER
                ++ [NL] ++ Sample.first_row) =
  [Build_entry (lit "2025-01-01") Sample.squat (lit "3") (lit "5")
               (lit "100.0") (lit "1500.0")].
Proof.
  assert (H1 : data_file Sample.after_first =
               Some (TEMPLATE ++ [NL; NL] ++ Sample.day ++ [NL] ++ TABLE_HEADER
                     ++ [NL] ++ Sample.first_row))
    by (vm_compute; reflexivity).
  split; [exact H1|].
  rewrite (proj1 (history_lists_rows_in_order Sample.after_first _ H1)).
  vm_compute. reflexivity.
Defined.

(** C4, as the claim words it, fails on two rows written by hand under a
    date heading.  Both start with the column delimiter and split into 7
    parts; the first has the action [Action Lunge], which is not the header
    label; the second is no separator row, its cells hold an exercise and
    numbers.  [history] lists neither. *)
Lemma history_skips_ordinary_rows :
  splitlines Sample.hand_written =
    splitlines TEMPLATE ++ [Sample.day; Sample.lunge_row; Sample.pulldown_row] /\
  heading_date Sample.day = Some (lit "2025-01-01") /\
  (startswith [PIPE] Sample.lunge_row = true /\
   existsb (N.eqb HYPHEN) Sample.lunge_row = false /\
   map strip (split PIPE Sample.lunge_row) =
     [[]; lit "Action Lunge"; lit "3"; lit "10"; lit "20.0"; lit "600.0"; []] /\
   lit "Action Lunge" <> lit "动作 (Action)") /\
  (startswith [PIPE] Sample.pulldown_row = true /\
   map strip (split PIPE Sample.pulldown_row) =
     [[]; lit "Pull---down"; lit "3"; lit "8"; lit "40.0"; lit "960.0"; []] /\
   lit "Pull---down" <> lit "动作 (Action)") /\
  history_rows Sample.hand_written = [].
Proof.
  repeat split; vm_compute; (reflexivity || discriminate).
Qed.

(** C8 on a document whose registry section is empty.  The section runs
    from its heading to the next heading and holds no bullet, so the list of
    actions should be empty, and [action show] has a message for that case.
    The pattern [(.+?)] needs one character before the next heading, skips
    the heading of the goals and returns the goals as actions. *)
Theorem get_actions_reads_goals :
  section_of Sample.emptied =
    Some (lit "# 我的训练日志" ++ [NL; NL],
          NL :: lit "## 训练目标" ++ [NL] ++ lit "- 深蹲: 120 kg" ++ [NL]
             ++ lit "- 卧推: 100 kg" ++ [NL],
          lit " 2025-01-01" ++ [NL] ++ TABLE_HEADER ++ [NL] ++ Sample.first_row)
  /\ get_actions (Sample.world_of Sample.emptied) =
     (Done [lit "深蹲: 120 kg"; lit "卧推: 100 kg"],
      Sample.world_of Sample.emptied)
  /\ console (snd (cli action_show (Sample.world_of Sample.emptied))) =
     [MsgActionsTable [lit "深蹲: 120 kg"; lit "卧推: 100 kg"]].
Proof. repeat split; vm_compute; reflexivity. Qed.



Lemma record_then_history_witness :
  data_file Sample.fresh = Some TEMPLATE /\
  fst (record (lit "Squat") 5 (Sample.kg 100000) 3 Sample.fresh) = Done tt /\
  iso_date (today Sample.fresh) = true /\
  (contains (date_header (today Sample.fresh)) TEMPLATE = true ->
   last_heading (splitlines TEMPLATE) <> None) /\
  (forall a, find_action (lit "Squat") (parse_actions TEMPLATE) = Some a ->
             tidy_name a) /\
  exists new_content,
    data_file (snd (record (lit "Squat") 5 (Sample.kg 100000) 3 Sample.fresh))
      = Some new_content /\
    history_rows new_content =
    history_rows TEMPLATE ++
    [Build_entry (lit "2025-01-01") Sample.squat (lit "3") (lit "5")
                 (lit "100.0") (lit "1500.0")].
Proof.
  assert (H1 : data_file Sample.fresh = Some TEMPLATE) by reflexivity.
  assert (H2 : fst (record (lit "Squat") 5 (Sample.kg 100000) 3 Sample.fresh)
               = Done tt) by (vm_compute; reflexivity).
  assert (H3 : iso_date (today Sample.fresh) = true) by reflexivity.
  assert (H4 : contains (date_header (today Sample.fresh)) TEMPLATE = true ->
               last_heading (splitlines TEMPLATE) <> None)
    by (intros H; vm_compute in H; discriminate).
  assert (H5 : forall a,
             find_action (lit "Squat") (parse_actions TEMPLATE) = Some a ->
             tidy_name a).
  { intros a Ha. vm_compute in Ha. inversion Ha. subst a.
    repeat split; vm_compute; reflexivity. }
  repeat (split; [assumption|]).
  destruct (record_then_history (lit "Squat") 5 3 (Sample.kg 100000)
              Sample.fresh TEMPLATE H1 H2 H3 H4 H5)
    as (a & volume & d & new_content & Ha & Hv & Hn & Hh & _ & Hd).
  vm_compute in Ha. inversion Ha. subst a.
  vm_compute in Hv. inversion Hv. subst volume.
  vm_compute in Hd. subst d.
  exists new_content. split; [exact Hn | exact Hh].
Defined.

(** C2, as the claim words it, fails in two ways.  On a document where
    the day was entered by hand as [### 2025-01-01], the text of today's
    heading occurs, so [record] appends the bare row, and [history] sees no
    date heading before it: the history is empty.  And after
    [action add "Push|Pull"], a record of that exercise is written as a
    row of 8 parts, which [history] skips. *)
Lemma record_not_in_history :
  (fst (record (lit "Squat") 5 (Sample.kg 100000) 3
               (Sample.world_of Sample.deep_heading)) = Done tt /\
   option_map history_rows
     (data_file (snd (record (lit "Squat") 5 (Sample.kg 100000) 3
                             (Sample.world_of Sample.deep_heading)))) =
   Some []) /\
  (fst (action_add (lit "Push|Pull") Sample.fresh) = Done tt /\
   fst (record (lit "pull") 8 (Sample.kg 40000) 3 Sample.with_push_pull)
     = Done tt /\
   option_map splitlines
     (data_file (snd (record (lit "pull") 8 (Sample.kg 40000) 3
                             Sample.with_push_pull))) =
   Some (lit "# 我的训练日志" :: [] :: lit "## 可用动作" :: lit "- Push|Pull"
         :: skipn 3 (splitlines TEMPLATE)
         ++ [[]; []; lit "## 2025-01-01"; HEADER_ROW; SEPARATOR_ROW;
             lit "| Push|Pull | 3 | 8 | 40.0 | 960.0 |"]) /\
   option_map history_rows
     (data_file (snd (record (lit "pull") 8 (Sample.kg 40000) 3
                             Sample.with_push_pull))) =
   Some []).
Proof. repeat split; vm_compute; reflexivity. Qed.



(** ** The further properties on sample documents *)


Lemma action_add_blank_name_witness :
  data_file Sample.fresh = Some TEMPLATE /\
  fst (action_add [] Sample.fresh) = Done tt /\
  console (snd (action_add [] Sample.fresh)) = [MsgAdded []] /\
  get_actions (snd (action_add [] Sample.fresh)) =
  (Done (parse_actions TEMPLATE), snd (action_add [] Sample.fresh)).
Proof.
  assert (H1 : data_file Sample.fresh = Some TEMPLATE) by reflexivity.
  assert (H5 : find_first (ACTIONS_HEADING ++ [NL]) TEMPLATE =
               Some (lit "# 我的训练日志" ++ [NL; NL], skipn 18 TEMPLATE))
    by (vm_compute; reflexivity).
  assert (H6 : startswith (lit "##") (skipn 18 TEMPLATE) = false)
    by (vm_compute; reflexivity).
  assert (H7 : startswith NEXT_HEADING (skipn 18 TEMPLATE) = false)
    by (vm_compute; reflexivity).
  assert (H8 : contains NEXT_HEADING (skipn 18 TEMPLATE) = true)
    by (vm_compute; reflexivity).
  destruct (action_add_blank_name Sample.fresh TEMPLATE [] _ _
              H1 eq_refl eq_refl H5 H6 H7 H8) as (Hrun & Hget).
  split; [exact H1|].
  split; [rewrite Hrun; reflexivity|].
  split; [rewrite Hrun; reflexivity|]. exact Hget.
Defined.


Lemma action_add_keeps_history_witness :
  (exists content, data_file Sample.after_first = Some content /\
                   ~ In (lit "Plank") (parse_actions content)) /\
  exists new_content,
    data_file (snd (action_add (lit "Plank") Sample.after_first)) =
      Some new_content /\
    history_rows new_content =
    [Build_entry (lit "2025-01-01") Sample.squat (lit "3") (lit "5")
                 (lit "100.0") (lit "1500.0")].
Proof.
  set (content := TEMPLATE ++ [NL; NL] ++ Sample.day ++ [NL] ++ TABLE_HEADER
                  ++ [NL] ++ Sample.first_row).
  assert (H1 : data_file Sample.after_first = Some content)
    by (vm_compute; reflexivity).
  assert (H2 : ~ In (lit "Plank") (parse_actions content)).
  { vm_compute. intros [H|[H|[H|[]]]]; discriminate. }
  assert (H3 : forallb (fun c => negb (c =? BACKSLASH)) (lit "Plank") = true)
    by reflexivity.
  assert (H4 : forallb no_break (lit "Plank") = true) by reflexivity.
  assert (H5 : find_first (ACTIONS_HEADING ++ [NL]) content =
               Some (lit "# 我的训练日志" ++ [NL; NL], skipn 18 content))
    by (vm_compute; reflexivity).
  split; [exists content; split; [exact H1 | exact H2]|].
  destruct (action_add_keeps_history Sample.after_first content (lit "Plank")
              _ _ H1 H2 H3 H4 H5) as (new_content & Hd & Hh).
  exists new_content. split; [exact Hd|].
  rewrite Hh. vm_compute. reflexivity.
Defined.

Lemma action_add_heading_missing_witness :
  data_file (Sample.world_of (lit "# log")) = Some (lit "# log") /\
  contains (ACTIONS_HEADING ++ [NL]) (lit "# log") = false /\
  action_add (lit "Plank") (Sample.world_of (lit "# log")) =
  (Raised (Exit 1),
   {| data_file := Some (lit "# log"); today := lit "2025-01-01";
      console := [MsgHeadingNotFound] |}).
Proof.
  assert (H1 : data_file (Sample.world_of (lit "# log")) = Some (lit "# log"))
    by reflexivity.
  assert (H2 : contains (ACTIONS_HEADING ++ [NL]) (lit "# log") = false)
    by (vm_compute; reflexivity).
  split; [exact H1|]. split; [exact H2|].
  exact (action_add_heading_missing (Sample.world_of (lit "# log"))
           (lit "# log") (lit "Plank") H1 H2 eq_refl).
Defined.



Lemma record_keeps_actions_witness :
  data_file Sample.fresh = Some TEMPLATE /\
  fst (record (lit "Squat") 5 (Sample.kg 100000) 3 Sample.fresh) = Done tt /\
  get_actions Sample.after_first =
  (Done (parse_actions TEMPLATE), Sample.after_first).
Proof.
  assert (H1 : data_file Sample.fresh = Some TEMPLATE) by reflexivity.
  assert (H2 : fst (record (lit "Squat") 5 (Sample.kg 100000) 3 Sample.fresh)
               = Done tt) by (vm_compute; reflexivity).
  split; [exact H1|]. split; [exact H2|].
  exact (record_keeps_actions (lit "Squat") 5 3 (Sample.kg 100000)
           Sample.fresh TEMPLATE H1 H2).
Defined.

Lemma record_same_day_witness :
  data_file Sample.fresh = Some TEMPLATE /\
  fst (record (lit "Squat") 5 (Sample.kg 100000) 3 Sample.fresh) = Done tt /\
  exists content1,
    data_file Sample.after_first = Some content1 /\
    contains (date_header (lit "2025-01-01")) content1 = true /\
    data_file (snd (record (lit "Squat") 5 (Sample.kg 80000) 1
                           Sample.after_first)) =
    Some (content1 ++ NL :: Sample.second_row).
Proof.
  assert (H1 : data_file Sample.fresh = Some TEMPLATE) by reflexivity.
  assert (H2 : fst (record (lit "Squat") 5 (Sample.kg 100000) 3 Sample.fresh)
               = Done tt) by (vm_compute; reflexivity).
  split; [exact H1|]. split; [exact H2|].
  destruct (record_same_day (lit "Squat") 5 3 (Sample.kg 100000)
              Sample.fresh TEMPLATE H1 H2)
    as (content1 & Hd & _ & Hc & Hnext).
  exists content1. split; [exact Hd|]. split; [exact Hc|].
  assert (H3 : fst (record (lit "Squat") 5 (Sample.kg 80000) 1
                           Sample.after_first) = Done tt)
    by (vm_compute; reflexivity).
  destruct (Hnext (lit "Squat") 5%Z 1%Z (Sample.kg 80000) H3)
    as (a2 & volume2 & Ea & Ev & Hd2).
  assert (Ea2 : Some a2 = Some Sample.squat)
    by (rewrite <- Ea; vm_compute; reflexivity).
  injection Ea2 as ->.
  assert (Ev2 : Some volume2 = Some (Sample.kg 400000))
    by (rewrite <- Ev; vm_compute; reflexivity).
  injection Ev2 as ->.
  exact Hd2.
Defined.

Lemma record_empty_query_witness :
  data_file Sample.fresh = Some TEMPLATE /\
  parse_actions TEMPLATE =
    Sample.squat :: [lit "卧推 (Bench Press)"; lit "硬拉 (Deadlift)"] /\
  str_lower [] = [] /\
  record [] 5 (Sample.kg 100000) 3 Sample.fresh =
  record_matched Sample.squat 5 (Sample.kg 100000) 3 Sample.fresh.
Proof.
  assert (H1 : data_file Sample.fresh = Some TEMPLATE) by reflexivity.
  assert (H2 : parse_actions TEMPLATE =
               Sample.squat :: [lit "卧推 (Bench Press)"; lit "硬拉 (Deadlift)"])
    by (vm_compute; reflexivity).
  assert (H3 : str_lower [] = []) by reflexivity.
  split; [exact H1|]. split; [exact H2|]. split; [exact H3|].
  exact (record_empty_query [] 5 3 (Sample.kg 100000) Sample.fresh TEMPLATE
           Sample.squat _ H1 H2 H3).
Defined.

Lemma get_actions_wellformed_witness :
  get_actions Sample.fresh = (Done (parse_actions TEMPLATE), Sample.fresh) /\
  forall a, In a (parse_actions TEMPLATE) ->
            a <> [] /\ ~ In NL a /\ isspace (last a SPACE) = false.
Proof.
  assert (H1 : get_actions Sample.fresh =
               (Done (parse_actions TEMPLATE), Sample.fresh)) by reflexivity.
  split; [exact H1|].
  exact (proj2 (get_actions_wellformed Sample.fresh _ _ H1)).
Defined.

Lemma get_actions_open_registry_witness :
  data_file (Sample.world_of Sample.registry_last) =
    Some Sample.registry_last /\
  find_first (ACTIONS_HEADING ++ [NL]) Sample.registry_last =
    Some (lit "# log" ++ [NL; NL], lit "- 深蹲 (Squat)" ++ [NL]) /\
  get_actions (Sample.world_of Sample.registry_last) =
    (Done [], Sample.world_of Sample.registry_last).
Proof.
  assert (H1 : data_file (Sample.world_of Sample.registry_last) =
               Some Sample.registry_last) by reflexivity.
  assert (H2 : find_first (ACTIONS_HEADING ++ [NL]) Sample.registry_last =
               Some (lit "# log" ++ [NL; NL], lit "- 深蹲 (Squat)" ++ [NL]))
    by (vm_compute; reflexivity).
  assert (H3 : match find_first (ACTIONS_HEADING ++ [NL]) Sample.registry_last
               with
               | Some (_, rest) => contains NEXT_HEADING (tl rest) = false
               | None => True
               end) by (rewrite H2; vm_compute; reflexivity).
  split; [exact H1|]. split; [exact H2|].
  exact (proj1 (get_actions_open_registry
                  (Sample.world_of Sample.registry_last)
                  Sample.registry_last H1 H3)).
Defined.

Lemma history_rows_wellformed_witness :
  In (Build_entry (lit "2025-01-01") Sample.squat (lit "3") (lit "5")
                  (lit "100.0") (lit "1500.0"))
     (history_rows (TEMPLATE ++ [NL; NL] ++ Sample.day ++ [NL] ++ TABLE_HEADER
                    ++ [NL] ++ Sample.first_row)) /\
  well_formed (Build_entry (lit "2025-01-01") Sample.squat (lit "3") (lit "5")
                           (lit "100.0") (lit "1500.0")).
Proof.
  assert (H1 : In (Build_entry (lit "2025-01-01") Sample.squat (lit "3")
                               (lit "5") (lit "100.0") (lit "1500.0"))
                  (history_rows (TEMPLATE ++ [NL; NL] ++ Sample.day ++ [NL]
                                 ++ TABLE_HEADER ++ [NL] ++ Sample.first_row)))
    by (vm_compute; left; reflexivity).
  split; [exact H1|].
  exact (history_rows_wellformed _ _ H1).
Defined.

Lemma history_skips_preamble_witness :
  (forall l, In l (splitlines TEMPLATE) -> heading_date l = None) /\
  history_rows TEMPLATE = [] /\
  history_rows (TEMPLATE ++ NL :: Sample.day ++ [NL] ++ Sample.first_row) =
  history_rows (Sample.day ++ [NL] ++ Sample.first_row).
Proof.
  assert (H1 : forall l, In l (splitlines TEMPLATE) -> heading_date l = None).
  { intros l Hl. vm_compute in Hl.
    repeat (destruct Hl as [<-|Hl]; [vm_compute; reflexivity|]).
    destruct Hl. }
  split; [exact H1|].
  exact (history_skips_preamble TEMPLATE
           (Sample.day ++ [NL] ++ Sample.first_row) H1).
Defined.

